(** * generate_docs.py: documentation extraction, doc graph and markdown rendering

    A shallow embedding of [src/generate_docs.py].  Python [str] values are
    modelled by [string]; a character is a code point below 256, so the
    character classes of [str.strip], [str.splitlines] and [str.lower] are
    the ones Python uses on that range.  Python's parser ([ast.parse]) and
    docstring cleaner ([inspect.cleandoc]) are library code: the extraction
    functions are parametric in them, and a model of [inspect.cleandoc] and
    the parse of one sample text instantiate them where a run is evaluated.
    The identity of a node is a number drawn from an allocation function.
    Reading a source file and writing an output file may raise: two
    predicates tell which reads and which writes the operating system
    accepts, and [main] has no result when a call raises.
    The optional Jac runtime, which is never handed the graph, is left
    out. *)

From Stdlib Require Import Ascii.
From stdpp Require Import base option list strings gmap relations.

Set Warnings "-register-all,-clear-no-such-hyp".

(** ** Python string methods *)

Module Py.

(** [str.isspace] on one character: TAB..CR, FS..US, space, NEL, NBSP. *)
Definition isspace (c : ascii) : bool :=
  let n := nat_of_ascii c in
  ((9 <=? n) && (n <=? 13)) || ((28 <=? n) && (n <=? 32))
  || (n =? 133) || (n =? 160).

(** Line boundaries of [str.splitlines] other than the pair CR LF. *)
Definition islinebreak (c : ascii) : bool :=
  let n := nat_of_ascii c in
  ((10 <=? n) && (n <=? 13)) || ((28 <=? n) && (n <=? 30)) || (n =? 133).

(** [bool(s)]: a string is truthy iff it is not empty. *)
Definition truthy (s : string) : bool :=
  match s with "" => false | _ => true end.

(** [a or b] on strings. *)
Definition or_else (a b : string) : string := if truthy a then a else b.

Fixpoint lstrip (s : string) : string :=
  match s with
  | "" => ""
  | String c r => if isspace c then lstrip r else s
  end.

Fixpoint rstrip (s : string) : string :=
  match s with
  | "" => ""
  | String c r =>
      match rstrip r with
      | "" => if isspace c then "" else String c ""
      | r' => String c r'
      end
  end.

(** [s.strip()] *)
Definition strip (s : string) : string := rstrip (lstrip s).

(** [s.lstrip(".")] *)
Fixpoint lstrip_dots (s : string) : string :=
  match s with
  | String "." r => lstrip_dots r
  | _ => s
  end.

(** [s.startswith(p)] *)
Fixpoint startswith (s p : string) {struct p} : bool :=
  match p, s with
  | "", _ => true
  | String a p', String b s' => Ascii.eqb a b && startswith s' p'
  | String _ _, "" => false
  end.

(** [s.endswith(p)] *)
Fixpoint endswith (s p : string) : bool :=
  String.eqb s p
  || match s with
     | "" => false
     | String _ s' => endswith s' p
     end.

(** [s[n:]] *)
Fixpoint drop (n : nat) (s : string) : string :=
  match n, s with
  | 0, _ => s
  | S n', String _ s' => drop n' s'
  | S _, "" => ""
  end.

(** [sep.join(l)] *)
Fixpoint join (sep : string) (l : list string) : string :=
  match l with
  | [] => ""
  | [x] => x
  | x :: l' => x +:+ sep +:+ join sep l'
  end.

(** [s.splitlines()]: [cur] is the current line, reversed. *)
Fixpoint splitlines_go (cur : string) (s : string) : list string :=
  match s with
  | "" => match cur with "" => [] | _ => [String.rev cur] end
  | String c r =>
      if Ascii.eqb c "013" then
        match r with
        | String "010" r' => String.rev cur :: splitlines_go "" r'
        | _ => String.rev cur :: splitlines_go "" r
        end
      else if islinebreak c then String.rev cur :: splitlines_go "" r
      else splitlines_go (String c cur) r
  end.
Definition splitlines (s : string) : list string := splitlines_go "" s.

(** [str.lower] on one character: A..Z and the upper-case letters of
    U+00C0..U+00DE (all but the multiplication sign U+00D7). *)
Definition lower_char (c : ascii) : ascii :=
  let n := nat_of_ascii c in
  if ((65 <=? n) && (n <=? 90))
     || ((192 <=? n) && (n <=? 222) && negb (n =? 215))
  then ascii_of_nat (n + 32) else c.

Fixpoint lower (s : string) : string :=
  match s with
  | "" => ""
  | String c r => String (lower_char c) (lower r)
  end.

(** [s.rfind(c)] for a one-character needle; [None] stands for -1. *)
Fixpoint rfind (c : ascii) (s : string) : option nat :=
  match s with
  | "" => None
  | String a r =>
      match rfind c r with
      | Some i => Some (S i)
      | None => if Ascii.eqb a c then Some 0 else None
      end
  end.

End Py.

(** ** pathlib: a path is its string form *)

Module Path.

(** [Path(root) / fn] for a directory [root] yielded by [os.walk] and one
    of its entries. *)
Definition joinpath (root fn : string) : string := root +:+ "/" +:+ fn.

(** [Path(p).name]: the final component. *)
Definition name (p : string) : string :=
  match Py.rfind "/" p with
  | Some i => Py.drop (S i) p
  | None => p
  end.

(** [Path(p).suffix]: the last dot of the name and what follows it, unless
    that dot is the first or the last character of the name. *)
Definition suffix (p : string) : string :=
  let nm := name p in
  match Py.rfind "." nm with
  | Some i =>
      if (0 <? i) && (i <? String.length nm - 1) then Py.drop i nm else ""
  | None => ""
  end.

End Path.

(** ** The generic comment extractor *)

(** A doc item: [(title, body)]. *)
Abbreviation item := (string * string)%type.

Definition nl : string := String "010" "".

(** Group 1 of every match of [re.compile(r"/\*(.*?)\*/", re.DOTALL)] that
    [finditer] yields, left to right.  [st] is [None] while looking for the
    next opening and [Some acc] inside a comment, [acc] being the text read
    since the opening, reversed.  An opening that is never closed matches
    nothing, and then no later opening can match either. *)
Fixpoint cblock_go (st : option string) (s : string) : list string :=
  match s with
  | "" => []
  | String c r =>
      match st with
      | None =>
          match c, r with
          | "/"%char, String "*" r' => cblock_go (Some "") r'
          | _, _ => cblock_go None r
          end
      | Some acc =>
          match c, r with
          | "*"%char, String "/" r' => String.rev acc :: cblock_go None r'
          | _, _ => cblock_go (Some (String c acc)) r
          end
      end
  end.
Definition cblock_finditer (content : string) : list string :=
  cblock_go None content.

(** Body of the first loop: one regex match. *)
Definition block_step (items : list item) (group1 : string) : list item :=
  let snippet := Py.strip group1 in
  if Py.truthy snippet then items ++ [("comment_block", snippet)] else items.

(** [items.append(("comment_block", "\n".join(buff).strip()))] when [buff]
    is not empty. *)
Definition flush (items : list item) (buff : list string) : list item :=
  match buff with
  | [] => items
  | _ => items ++ [("comment_block", Py.strip (Py.join nl buff))]
  end.

(** Body of the second loop: one line, on the state [(items, buff)]. *)
Definition line_step (st : list item * list string) (ln : string)
  : list item * list string :=
  let '(items, buff) := st in
  let stripped := Py.strip ln in
  if Py.startswith stripped "//" then
    (items, buff ++ [Py.strip (Py.drop 2 stripped)])
  else if Py.startswith stripped "#" then
    (items, buff ++ [Py.strip (Py.drop 1 stripped)])
  else
    match buff with
    | [] => (items, buff)
    | _ => (flush items buff, [])
    end.

Definition parse_generic_comments (content : string) : list item :=
  let items := fold_left block_step (cblock_finditer content) [] in
  let lines := Py.splitlines content in
  let '(items, buff) := fold_left line_step lines (items, []) in
  flush items buff.

(** *** The extractor as the specification words it *)

(** First pass: the non-empty trimmed block comments, in order. *)
Definition block_items (content : string) : list item :=
  map (fun s => ("comment_block", s))
      (List.filter Py.truthy (map Py.strip (cblock_finditer content))).

(** What a line contributes to a run: its text after the marker, trimmed;
    [None] for a line that is not a comment line. *)
Definition comment_text (ln : string) : option string :=
  let stripped := Py.strip ln in
  if Py.startswith stripped "//" then Some (Py.strip (Py.drop 2 stripped))
  else if Py.startswith stripped "#" then Some (Py.strip (Py.drop 1 stripped))
  else None.

(** The maximal runs of consecutive comment lines, in file order. *)
Fixpoint comment_runs (lines : list string) : list (list string) :=
  match lines with
  | [] => []
  | ln :: rest =>
      match comment_text ln with
      | None => comment_runs rest
      | Some t =>
          match rest with
          | next :: _ =>
              match comment_text next, comment_runs rest with
              | Some _, run :: runs => (t :: run) :: runs
              | _, runs => [t] :: runs
              end
          | [] => [[t]]
          end
      end
  end.

(** Second pass: one item per run. *)
Definition run_items (lines : list string) : list item :=
  map (fun run => ("comment_block", Py.strip (Py.join nl run)))
      (comment_runs lines).

(** ** The syntax tree, as far as the extractor looks at it *)

Module ast.

Inductive expr : Type :=
| Constant_str (value : string)     (* [Constant] holding a [str] *)
| OtherExpr.                        (* any other expression *)

Inductive stmt : Type :=
| FunctionDef (name : string) (body : list stmt)
| AsyncFunctionDef (name : string) (body : list stmt)
| ClassDef (name : string) (body : list stmt)
| Expr (value : expr)
| OtherStmt.                        (* any other statement *)

(** [ast.Module] *)
Record Mod : Type := { body : list stmt }.

(** [ast.get_docstring(node)] on the body of [node]; [cleandoc] is
    [inspect.cleandoc]. *)
Definition get_docstring (cleandoc : string -> string) (node_body : list stmt)
  : option string :=
  match node_body with
  | Expr (Constant_str text) :: _ => Some (cleandoc text)
  | _ => None
  end.

End ast.

(** [inspect.cleandoc] as CPython 3.8 to 3.12 define it; the instance used
    where a concrete docstring is evaluated. *)
Module inspect.

Fixpoint spaces (n : nat) : string :=
  match n with 0 => "" | S n' => String " " (spaces n') end.

(** [s.expandtabs()], [col] being the current column modulo 8. *)
Fixpoint expandtabs_go (col : nat) (s : string) : string :=
  match s with
  | "" => ""
  | String c r =>
      if Ascii.eqb c "009" then spaces (8 - col) +:+ expandtabs_go 0 r
      else if Ascii.eqb c "010" || Ascii.eqb c "013"
           then String c (expandtabs_go 0 r)
      else String c (expandtabs_go (S col mod 8) r)
  end.
Definition expandtabs (s : string) : string := expandtabs_go 0 s.

(** [s.split("\n")], [cur] being the current piece, reversed. *)
Fixpoint split_nl_go (cur : string) (s : string) : list string :=
  match s with
  | "" => [String.rev cur]
  | String c r =>
      if Ascii.eqb c "010" then String.rev cur :: split_nl_go "" r
      else split_nl_go (String c cur) r
  end.
Definition split_nl (s : string) : list string := split_nl_go "" s.

(** The loop that finds the least indentation of the non-blank lines. *)
Definition margin_step (margin : option nat) (line : string) : option nat :=
  let content := String.length (Py.lstrip line) in
  match content with
  | 0 => margin
  | _ =>
      let indent := String.length line - content in
      Some (match margin with Some m => Nat.min m indent | None => indent end)
  end.

(** [while lines and not lines[0]: lines.pop(0)] *)
Fixpoint pop_leading (lines : list string) : list string :=
  match lines with
  | "" :: rest => pop_leading rest
  | _ => lines
  end.

Definition cleandoc (doc : string) : string :=
  match split_nl (expandtabs doc) with
  | [] => ""
  | first :: rest =>
      let margin := fold_left margin_step rest None in
      let first := Py.lstrip first in
      let rest :=
        match margin with
        | Some m => map (Py.drop m) rest
        | None => rest
        end in
      let lines := rev (pop_leading (rev (first :: rest))) in
      Py.join nl (pop_leading lines)
  end.

End inspect.

(** ** The structured extractor *)

Section Extractors.

(** [ast.parse]: [None] when it raises. *)
Variable ast_parse : string -> option ast.Mod.
(** [inspect.cleandoc] *)
Variable cleandoc : string -> string.

(** [ast.get_docstring(node) or ""] *)
Definition docstring_or_empty (node_body : list ast.stmt) : string :=
  match ast.get_docstring cleandoc node_body with
  | Some d => Py.or_else d ""
  | None => ""
  end.

(** Body of the loop over a class body: collect one method. *)
Definition method_step (methods : list (string * string)) (elt : ast.stmt)
  : list (string * string) :=
  match elt with
  | ast.FunctionDef mname mbody | ast.AsyncFunctionDef mname mbody =>
      methods ++ [(mname, Py.strip (docstring_or_empty mbody))]
  | _ => methods
  end.

(** [body_lines += f"- {mname}(): {mdoc or '(no doc)'}\n"] *)
Definition method_line_step (body_lines : string) (m : string * string)
  : string :=
  body_lines +:+ "- " +:+ m.1 +:+ "(): " +:+ Py.or_else m.2 "(no doc)" +:+ nl.

(** The branch of the statement loop for a [ClassDef]. *)
Definition class_item (name : string) (class_body : list ast.stmt) : item :=
  let doc := docstring_or_empty class_body in
  let methods := fold_left method_step class_body [] in
  let body_lines := Py.strip doc in
  let body_lines :=
    match methods with
    | [] => body_lines
    | _ => fold_left method_line_step methods
             (body_lines +:+ nl +:+ nl +:+ "Methods:" +:+ nl)
    end in
  ("class " +:+ name, Py.or_else (Py.strip body_lines) "(no doc)").

(** Body of the loop over [module.body]. *)
Definition node_step (items : list item) (node : ast.stmt) : list item :=
  match node with
  | ast.FunctionDef name fbody =>
      items ++ [("def " +:+ name +:+ "()", Py.strip (docstring_or_empty fbody))]
  | ast.AsyncFunctionDef name fbody =>
      items ++ [("async def " +:+ name +:+ "()",
                 Py.strip (docstring_or_empty fbody))]
  | ast.ClassDef name cbody => items ++ [class_item name cbody]
  | _ => items
  end.

(** The part of [parse_python] that follows a successful parse. *)
Definition module_items (module : ast.Mod) : list item :=
  let items :=
    match ast.get_docstring cleandoc (ast.body module) with
    | Some module_doc =>
        if Py.truthy module_doc then [("module", Py.strip module_doc)] else []
    | None => []
    end in
  fold_left node_step (ast.body module) items.

Definition parse_python (content : string) : list item :=
  match ast_parse content with
  | None => parse_generic_comments content
  | Some module => module_items module
  end.

End Extractors.

(** ** The in-memory graph *)

(** [node_id] is the identity of the object ([id(self)], what [is]
    compares). *)
Record Node : Type := mkNode {
  j_type : string;
  props : gmap string string;
  node_id : nat
}.

Record Edge : Type := mkEdge {
  edge_j_type : string;
  source : Node;
  dest : Node
}.

Record GraphSimple : Type := mkGraph {
  nodes : list Node;
  edges : list Edge
}.

(** [GraphSimple()] *)
Definition GraphSimple_init : GraphSimple := {| nodes := []; edges := [] |}.

(** [a is b] on nodes *)
Definition node_is (a b : Node) : bool := node_id a =? node_id b.

Section Graph.

(** The identity given to the [n]-th object allocated.  Every node stays
    reachable from the graph, so no two nodes share an identity: the
    properties that depend on it assume [alloc] injective. *)
Variable alloc : nat -> nat.

Definition add_node (g : GraphSimple) (jt : string) (ps : gmap string string)
  : GraphSimple * Node :=
  let n := {| j_type := jt; props := ps; node_id := alloc (length (nodes g)) |} in
  ({| nodes := nodes g ++ [n]; edges := edges g |}, n).

Definition add_edge (g : GraphSimple) (jt : string) (src dst : Node)
  : GraphSimple * Edge :=
  let e := {| edge_j_type := jt; source := src; dest := dst |} in
  ({| nodes := nodes g; edges := edges g ++ [e] |}, e).

Definition find_nodes (g : GraphSimple) (jt : string) : list Node :=
  List.filter (fun n => String.eqb (j_type n) jt) (nodes g).

End Graph.

(** ** The orchestrator *)

Definition SRC_DIR : string := "src".
Definition DOCS_DIR : string := "docs".

(** What the run reads and writes besides the source tree: the output
    directory, as a map from path to file content, and standard output. *)
Record World : Type := mkWorld {
  docs : gmap string string;
  stdout : list string
}.

Definition print (w : World) (line : string) : World :=
  {| docs := docs w; stdout := stdout w ++ [line] |}.

(** [out.write_text(text)]: create or overwrite; [None] when the call
    raises, the operating system refusing the file ([OSError]: a name too
    long, no permission, ...).  [writable out text] tells whether the
    write of [text] to [out] is accepted. *)
Definition write_text (writable : string -> string -> bool)
    (w : World) (out text : string) : option World :=
  if writable out text
  then Some {| docs := <[out := text]> (docs w); stdout := stdout w |}
  else None.

Definition extensions : list string :=
  [".py"; ".js"; ".java"; ".ts"; ".cpp"; ".c"; ".h"].

(** [fn.lower().endswith((".py", ...))] *)
Definition allowed (fn : string) : bool :=
  existsb (Py.endswith (Py.lower fn)) extensions.

(** Body of the inner loop of the walk. *)
Definition walk_file_step (root : string) (file_paths : list string) (fn : string)
  : list string :=
  if allowed fn then file_paths ++ [Path.joinpath root fn] else file_paths.

(** Body of the outer loop: one [(root, files)] of [os.walk(SRC_DIR)]. *)
Definition walk_dir_step (file_paths : list string) (entry : string * list string)
  : list string :=
  fold_left (walk_file_step entry.1) entry.2 file_paths.

(** The list [file_paths] the walk builds, from what [os.walk] yields:
    each directory with the names of its files. *)
Definition enumerate (walk : list (string * list string)) : list string :=
  fold_left walk_dir_step walk [].

(** The two extractors [main] chooses between. *)
Inductive Extractor : Type := StructuredDocExtractor | CommentExtractor.

(** [if path.suffix == ".py"] *)
Definition select_extractor (path : string) : Extractor :=
  if String.eqb (Path.suffix path) ".py" then StructuredDocExtractor
  else CommentExtractor.

(** [items = [("Summary", ...)]] when [items] is empty. *)
Definition or_placeholder (path : string) (items : list item) : list item :=
  match items with
  | [] => [("Summary",
            "No docstrings or comment blocks found in " +:+ Path.name path)]
  | _ => items
  end.

(** [doc.props.get(key, dflt)] *)
Definition props_get (n : Node) (key dflt : string) : string :=
  default dflt (props n !! key).

(** The properties of the [doc] node of an item of the file at [path]. *)
Definition doc_props (path : string) (it : item) : gmap string string :=
  {[ "title" := it.1;
     "body" := Py.or_else it.2 "(no description)";
     "lang" := Py.lstrip_dots (Path.suffix path) ]}.

(** The properties of the [file] node of the file at [path]. *)
Definition file_props (path content : string) : gmap string string :=
  {[ "path" := path; "content" := content ]}.

Section Pipeline.

Variable ast_parse : string -> option ast.Mod.
Variable cleandoc : string -> string.
Variable alloc : nat -> nat.
(** [path.read_text(encoding="utf-8", errors="ignore")], when it returns *)
Variable read_text : string -> string.
(** Whether [path.read_text] returns: it raises [OSError] on a file the
    operating system does not let read. *)
Variable readable : string -> bool.
(** Whether [out.write_text(text)] returns. *)
Variable writable : string -> string -> bool.

Definition extract (path content : string) : list item :=
  match select_extractor path with
  | StructuredDocExtractor => parse_python ast_parse cleandoc content
  | CommentExtractor => parse_generic_comments content
  end.

(** Body of [for title, body in items]. *)
Definition item_step (path : string) (file_node : Node) (g : GraphSimple)
    (it : item) : GraphSimple :=
  let '(g, doc_node) := add_node alloc g "doc" (doc_props path it) in
  (add_edge g "for_file" doc_node file_node).1.

(** Body of [for path in file_paths]. *)
Definition file_step (g : GraphSimple) (path : string) : GraphSimple :=
  let content := read_text path in
  let '(g, file_node) := add_node alloc g "file" (file_props path content) in
  let items := or_placeholder path (extract path content) in
  fold_left (item_step path file_node) items g.

(** The graph after the first loop, when no read raises. *)
Definition build_graph (file_paths : list string) : GraphSimple :=
  fold_left file_step file_paths GraphSimple_init.

(** Body of [for path in file_paths] with the read that may raise: [None]
    once [path.read_text] has raised. *)
Definition read_step (g : option GraphSimple) (path : string) : option GraphSimple :=
  g ← g;
  if readable path then Some (file_step g path) else None.

(** The first loop: [None] when a read raises. *)
Definition first_loop (file_paths : list string) : option GraphSimple :=
  fold_left read_step file_paths (Some GraphSimple_init).

(** [[e.source for e in g.edges if e.j_type == "for_file" and e.dest is file_node]] *)
Definition linked_docs (g : GraphSimple) (file_node : Node) : list Node :=
  map source
    (List.filter
       (fun e => String.eqb (edge_j_type e) "for_file" && node_is (dest e) file_node)
       (edges g)).

(** Body of [for doc in linked_docs]. *)
Definition doc_step (lines : list string) (doc : Node) : list string :=
  let lines := lines ++ ["## " +:+ props_get doc "title" "" +:+ nl] in
  let body := props_get doc "body" "(no description)" in
  lines ++ [body +:+ nl].

(** The markdown of one file node, given its path property. *)
Definition render (g : GraphSimple) (file_node : Node) (path : string) : string :=
  let linked := linked_docs g file_node in
  let lines := [] ++ ["# " +:+ Path.name path +:+ nl] in
  let lines := lines ++ ["_path_: `" +:+ path +:+ "`" +:+ nl] in
  let lines :=
    match linked with
    | [] => lines ++ ["No extracted docs found." +:+ nl]
    | _ => fold_left doc_step linked lines
    end in
  Py.join nl lines.

(** [DOCS_DIR / (Path(path).name + ".md")] *)
Definition out_path (path : string) : string :=
  Path.joinpath DOCS_DIR (Path.name path +:+ ".md").

(** Body of [for file_node in g.find_nodes("file")]; [None] when
    [file_node.props['path']] raises [KeyError] or [out.write_text]
    raises. *)
Definition render_step (g : GraphSimple) (w : option World) (file_node : Node)
  : option World :=
  w ← w;
  path ← props file_node !! "path";
  let out := out_path path in
  w ← write_text writable w out (render g file_node path);
  Some (print w ("Wrote " +:+ out)).

Definition render_all (g : GraphSimple) (w : World) : option World :=
  fold_left (render_step g) (find_nodes g "file") (Some w).

(** [main()], from the directories [os.walk] yields; [None] when it
    raises: a read or a write raised, and the result says nothing of what
    the run had written by then. *)
Definition main (walk : list (string * list string)) (w : World) : option World :=
  let file_paths := enumerate walk in
  match file_paths with
  | [] => Some (print w ("No source files found in " +:+ SRC_DIR +:+ "."))
  | _ =>
      g ← first_loop file_paths;
      w ← render_all g w;
      Some (print w "Done. Check the docs folder.")
  end.

End Pipeline.

(** *** The loops of [main] as a transition system

    A configuration is the graph, the program point and the paths still to
    visit.  The graph changes only in the first loop. *)

Inductive Phase : Type :=
| AtFile
    (* at the head of [for path in file_paths] *)
| AtItem (path : string) (file_node : Node) (items : list item)
    (* at the head of [for title, body in items], [items] still to do *)
| AtEdge (path : string) (file_node doc_node : Node) (items : list item).
    (* between [g.add_node("doc", ...)] and [g.add_edge(...)] *)

Record Config : Type := mkConfig {
  cfg_graph : GraphSimple;
  cfg_phase : Phase;
  cfg_todo : list string
}.

Section Machine.

Variable ast_parse : string -> option ast.Mod.
Variable cleandoc : string -> string.
Variable alloc : nat -> nat.
Variable read_text : string -> string.

Inductive step : Config -> Config -> Prop :=
| step_file g path todo g' file_node :
    add_node alloc g "file" (file_props path (read_text path)) = (g', file_node) ->
    step (mkConfig g AtFile (path :: todo))
         (mkConfig g'
            (AtItem path file_node
               (or_placeholder path
                  (extract ast_parse cleandoc path (read_text path))))
            todo)
| step_doc g path file_node it items todo g' doc_node :
    add_node alloc g "doc" (doc_props path it) = (g', doc_node) ->
    step (mkConfig g (AtItem path file_node (it :: items)) todo)
         (mkConfig g' (AtEdge path file_node doc_node items) todo)
| step_edge g path file_node doc_node items todo g' e :
    add_edge g "for_file" doc_node file_node = (g', e) ->
    step (mkConfig g (AtEdge path file_node doc_node items) todo)
         (mkConfig g' (AtItem path file_node items) todo)
| step_next g path file_node todo :
    step (mkConfig g (AtItem path file_node []) todo)
         (mkConfig g AtFile todo).

Definition initial (file_paths : list string) : Config :=
  mkConfig GraphSimple_init AtFile file_paths.

(** A graph the first loop passes through on [file_paths]. *)
Definition reachable (file_paths : list string) (g : GraphSimple) : Prop :=
  exists c, rtc step (initial file_paths) c /\ cfg_graph c = g.

End Machine.

(** The invariant on edges. *)
Definition edge_ok (g : GraphSimple) (e : Edge) : Prop :=
  edge_j_type e = "for_file"
  /\ j_type (source e) = "doc" /\ source e ∈ nodes g
  /\ j_type (dest e) = "file" /\ dest e ∈ nodes g.

(** ** The structured extractor as the specification words it *)

Section ExtractorSpec.

Variable cleandoc : string -> string.

(** The documentation string of a definition, empty if absent, trimmed. *)
Definition trimmed_doc (node_body : list ast.stmt) : string :=
  Py.strip (default "" (ast.get_docstring cleandoc node_body)).

(** The methods defined directly in a class body, in declaration order,
    each with its trimmed documentation string. *)
Definition direct_methods (class_body : list ast.stmt) : list (string * string) :=
  omap (fun elt =>
          match elt with
          | ast.FunctionDef mname mbody | ast.AsyncFunctionDef mname mbody =>
              Some (mname, trimmed_doc mbody)
          | _ => None
          end) class_body.

(** ["- <name>(): <doc or '(no doc)'>"] *)
Definition method_line (m : string * string) : string :=
  "- " +:+ m.1 +:+ "(): " +:+ (if Py.truthy m.2 then m.2 else "(no doc)").

(** The [Methods:] section: nothing without methods, else a blank line,
    the heading and one line per method. *)
Definition methods_section (methods : list (string * string)) : string :=
  match methods with
  | [] => ""
  | _ => nl +:+ nl +:+ "Methods:" +:+ nl
         +:+ foldr (fun m rest => method_line m +:+ nl +:+ rest) "" methods
  end.

(** The body of a class item: docstring, then the section, the whole
    trimmed, [(no doc)] if that is empty. *)
Definition class_body_text (class_body : list ast.stmt) : string :=
  let combined :=
    Py.strip (trimmed_doc class_body +:+ methods_section (direct_methods class_body)) in
  if Py.truthy combined then combined else "(no doc)".

(** The item of one top-level statement, if it has one. *)
Definition statement_item (node : ast.stmt) : option item :=
  match node with
  | ast.FunctionDef name fbody => Some ("def " +:+ name +:+ "()", trimmed_doc fbody)
  | ast.AsyncFunctionDef name fbody =>
      Some ("async def " +:+ name +:+ "()", trimmed_doc fbody)
  | ast.ClassDef name cbody => Some ("class " +:+ name, class_body_text cbody)
  | _ => None
  end.

(** The [module] item, present when the module docstring is not empty. *)
Definition module_doc_item (module : ast.Mod) : list item :=
  match ast.get_docstring cleandoc (ast.body module) with
  | Some d => if Py.truthy d then [("module", Py.strip d)] else []
  | None => []
  end.

End ExtractorSpec.

(** ** The run, as the specification words it *)

(** The runs a pending buffer and the lines still to read give: the second
    loop of [parse_generic_comments], with the runs in place of the items. *)
Definition flush_runs (buff : list string) : list (list string) :=
  match buff with [] => [] | _ => [buff] end.

Fixpoint runs_from (buff : list string) (lines : list string) : list (list string) :=
  match lines with
  | [] => flush_runs buff
  | ln :: rest =>
      match comment_text ln with
      | Some t => runs_from (buff ++ [t]) rest
      | None => flush_runs buff ++ runs_from [] rest
      end
  end.

(** The item of a run. *)
Definition run_item (run : list string) : item :=
  ("comment_block", Py.strip (Py.join nl run)).

(** Every character of [s] satisfies [P]. *)
Fixpoint all_chars (P : ascii -> bool) (s : string) : bool :=
  match s with
  | "" => true
  | String c r => P c && all_chars P r
  end.

(** A text without line boundary. *)
Definition one_line (s : string) : bool :=
  all_chars (fun c => negb (Py.islinebreak c)) s.

(** A text without asterisk: no block comment opens or closes in it. *)
Definition star_free (s : string) : bool :=
  all_chars (fun c => negb (Ascii.eqb c "*")) s.

(** The body of a class with methods, written out: the docstring and a
    blank line if there is a docstring, the heading, the method lines. *)
Definition methods_text (doc : string) (methods : list (string * string)) : string :=
  (if Py.truthy doc then doc +:+ nl +:+ nl else "")
  +:+ "Methods:" +:+ nl +:+ Py.join nl (map method_line methods).

(** The nodes the first loop creates, block by block. *)
Section Layout.

Variable ast_parse : string -> option ast.Mod.
Variable cleandoc : string -> string.
Variable alloc : nat -> nat.
Variable read_text : string -> string.

(** The items [main] links to the file at [path]. *)
Definition items_of (path : string) : list item :=
  or_placeholder path (extract ast_parse cleandoc path (read_text path)).

Definition file_node_at (n : nat) (path : string) : Node :=
  {| j_type := "file"; props := file_props path (read_text path);
     node_id := alloc n |}.

Definition doc_node_at (n : nat) (path : string) (it : item) : Node :=
  {| j_type := "doc"; props := doc_props path it; node_id := alloc n |}.

(** The [doc] nodes of [items], the first being the [n]-th allocation. *)
Fixpoint doc_nodes (n : nat) (path : string) (items : list item) : list Node :=
  match items with
  | [] => []
  | it :: items' => doc_node_at n path it :: doc_nodes (S n) path items'
  end.

(** One block per path: its [file] node and its [doc] nodes. *)
Fixpoint layout (n : nat) (paths : list string) : list (Node * list Node) :=
  match paths with
  | [] => []
  | path :: paths' =>
      let ds := doc_nodes (S n) path (items_of path) in
      (file_node_at n path, ds) :: layout (S n + length ds) paths'
  end.

Definition block_nodes (b : Node * list Node) : list Node := b.1 :: b.2.

Definition block_edges (b : Node * list Node) : list Edge :=
  map (fun d => {| edge_j_type := "for_file"; source := d; dest := b.1 |}) b.2.

End Layout.

(** [e.j_type == "for_file" and e.dest is file_node] *)
Definition is_linked (file_node : Node) (e : Edge) : bool :=
  String.eqb (edge_j_type e) "for_file" && node_is (dest e) file_node.

(** The two lines of an item in the markdown. *)
Definition item_lines (it : item) : list string :=
  ["## " +:+ it.1 +:+ nl; Py.or_else it.2 "(no description)" +:+ nl].

(** The markdown of a file from its path and items alone. *)
Definition markdown (path : string) (its : list item) : string :=
  Py.join nl
    (["# " +:+ Path.name path +:+ nl; "_path_: `" +:+ path +:+ "`" +:+ nl]
     ++ flat_map item_lines its).

Section PipelineSpec.

Variable ast_parse : string -> option ast.Mod.
Variable cleandoc : string -> string.
Variable read_text : string -> string.

(** What the second loop does for one file, when its write is accepted. *)
Definition emit (w : World) (path : string) : World :=
  let out := out_path path in
  print
    {| docs := <[out := markdown path (items_of ast_parse cleandoc read_text path)]> (docs w);
       stdout := stdout w |}
    ("Wrote " +:+ out).

(** The write of the markdown of the file at [path] is accepted. *)
Definition accepted (writable : string -> string -> bool) (path : string) : bool :=
  writable (out_path path) (markdown path (items_of ast_parse cleandoc read_text path)).

End PipelineSpec.

(** A [file] node, a [doc] node of the graph. *)
Definition is_file_of (g : GraphSimple) (n : Node) : Prop :=
  j_type n = "file" /\ n ∈ nodes g.
Definition is_doc_of (g : GraphSimple) (n : Node) : Prop :=
  j_type n = "doc" /\ n ∈ nodes g.

(** The invariant of the first loop: the edges are well formed, and so
    are the nodes the program point holds. *)
Definition config_ok (c : Config) : Prop :=
  Forall (edge_ok (cfg_graph c)) (edges (cfg_graph c))
  /\ match cfg_phase c with
     | AtFile => True
     | AtItem _ file_node _ => is_file_of (cfg_graph c) file_node
     | AtEdge _ file_node doc_node _ =>
         is_file_of (cfg_graph c) file_node /\ is_doc_of (cfg_graph c) doc_node
     end.

(** A name without slash, as a directory entry is. *)
Definition slash_free (s : string) : bool :=
  all_chars (fun c => negb (Ascii.eqb c "/")) s.

(** ** A sample tree, for evaluating the pipeline *)

Definition sample_source : string :=
  Py.join nl
    ["'Shapes.'";
     "class C:";
     "    def m1(self):";
     "        'returns 1'";
     "        return 1";
     "    def m2(self):";
     "        pass";
     "def f():";
     "    def inner():";
     "        'hidden'";
     "x = 1"].

Definition sample_module : ast.Mod :=
  {| ast.body :=
       [ast.Expr (ast.Constant_str "Shapes.");
        ast.ClassDef "C"
          [ast.FunctionDef "m1" [ast.Expr (ast.Constant_str "returns 1"); ast.OtherStmt];
           ast.FunctionDef "m2" [ast.OtherStmt]];
        ast.FunctionDef "f"
          [ast.FunctionDef "inner" [ast.Expr (ast.Constant_str "hidden")]];
        ast.OtherStmt] |}.

(** The module whose only statement is the empty string literal. *)
Definition empty_doc_module : ast.Mod :=
  {| ast.body := [ast.Expr (ast.Constant_str "")] |}.

(** [ast.parse] on the texts of the sample tree: it raises on every other. *)
Definition sample_parse (content : string) : option ast.Mod :=
  if String.eqb content sample_source then Some sample_module
  else if String.eqb content "''" then Some empty_doc_module
  else None.

Definition sample_read_text (path : string) : string :=
  if String.eqb path "src/shapes.py" then sample_source
  else if String.eqb path "src/MAIN.PY" then sample_source
  else if String.eqb path "src/broken.py" then "def broken(:" +:+ nl +:+ "# to do"
  else if String.eqb path "src/a/x.c"
       then Py.join nl ["/* A */"; "// one"; "// two"; "// three"]
  else "".

Definition sample_walk : list (string * list string) :=
  [("src", ["shapes.py"; "MAIN.PY"; "notes.txt"; "broken.py"]);
   ("src/a", ["x.c"]);
   ("src/b", ["x.c"; "empty.h"])].

Definition empty_world : World := {| docs := ∅; stdout := [] |}.

(** An operating system that lets every file be read and accepts a write
    when the name of the file has at most 255 characters, the usual
    limit. *)
Definition reads_ok (path : string) : bool := true.
Definition name_fits (out text : string) : bool :=
  String.length (Path.name out) <=? 255.

(** A file name of 254 characters: with [.md] after it, one too long. *)
Definition long_name : string :=
  String.string_of_list_ascii (repeat "a"%char 251) +:+ ".py".

(** ** Shapes of texts and graphs the further properties speak of *)

(** A text in which no block comment opens: no slash followed by an
    asterisk. *)
Fixpoint open_free (s : string) : bool :=
  match s with
  | "" => true
  | String c r =>
      match r with
      | String c' _ => negb (Ascii.eqb c "/" && Ascii.eqb c' "*") && open_free r
      | "" => true
      end
  end.

(** A text in which no block comment closes: no asterisk followed by a
    slash. *)
Fixpoint close_free (s : string) : bool :=
  match s with
  | "" => true
  | String c r =>
      match r with
      | String c' _ => negb (Ascii.eqb c "*" && Ascii.eqb c' "/") && close_free r
      | "" => true
      end
  end.

(** A line that is not a comment line. *)
Definition plain_line (ln : string) : bool :=
  let stripped := Py.strip ln in
  negb (Py.startswith stripped "//") && negb (Py.startswith stripped "#").

(** A comment line: its marker, [#] or [//], and its text. *)
Definition comment_line (x : bool * string) : string :=
  (if x.1 then "#" else "//") +:+ x.2.

(** The identities of the nodes of a graph are the first allocations, in
    order. *)
Definition ids_in_order (alloc : nat -> nat) (g : GraphSimple) : Prop :=
  map node_id (nodes g) = map alloc (seq 0 (length (nodes g))).

(** What every step of the first loop keeps true of the nodes. *)
Definition nodes_ok (alloc : nat -> nat) (g : GraphSimple) : Prop :=
  ids_in_order alloc g
  /\ Forall (fun n => j_type n = "file" \/ j_type n = "doc") (nodes g).

(** A text without dot. *)
Definition dot_free (s : string) : bool :=
  all_chars (fun c => negb (Ascii.eqb c ".")) s.

(** ** Properties *)

Example strip_ex : Py.strip "  a b
 " = "a b".
Proof. reflexivity. Qed.

Example splitlines_ex :
  Py.splitlines (String "a" (String "013" (String "010" (String "b" (String "010" "")))))
  = ["a"; "b"].
Proof. reflexivity. Qed.

Example suffix_ex : Path.suffix "src/pkg/mod.tar.py" = ".py" /\ Path.suffix "src/.py" = ""
  /\ Path.name "src/pkg/mod.py" = "mod.py" /\ Py.lower "MAIN.Py" = "main.py".
Proof. repeat split; reflexivity. Qed.

Example generic_ex :
  parse_generic_comments ("// first" +:+ nl +:+ "/* second */" +:+ nl +:+ "x = 1 # no")
  = [("comment_block", "second"); ("comment_block", "first")].
Proof. vm_compute. reflexivity. Qed.

(** *** Strings *)

Section StringFacts.

Lemma sapp_cons c (s t : string) : String c s +:+ t = String c (s +:+ t).
Proof. reflexivity. Qed.

Lemma sapp_empty_l (s : string) : "" +:+ s = s.
Proof. reflexivity. Qed.

Lemma sapp_empty_r (s : string) : s +:+ "" = s.
Proof. induction s as [|c s IH]; [done|]. by rewrite sapp_cons, IH. Qed.

Lemma sapp_assoc (a b c : string) : (a +:+ b) +:+ c = a +:+ b +:+ c.
Proof. induction a as [|x a IH]; [done|]. by rewrite !sapp_cons, IH. Qed.

Lemma rev_app_app (a b x : string) :
  String.rev_app a b +:+ x = String.rev_app a (b +:+ x).
Proof. revert b. induction a as [|c a IH]; intros b; simpl; [done|]. by rewrite IH. Qed.

Lemma truthy_false (s : string) : Py.truthy s = false -> s = "".
Proof. by destruct s. Qed.

Lemma rstrip_cons_keep c r :
  Py.isspace c = false -> Py.rstrip (String c r) = String c (Py.rstrip r).
Proof. intros Hc. simpl. rewrite Hc. by destruct (Py.rstrip r). Qed.

Lemma rstrip_cons_nonempty c r :
  Py.rstrip r <> "" -> Py.rstrip (String c r) = String c (Py.rstrip r).
Proof. intros Hr. simpl. by destruct (Py.rstrip r). Qed.

Lemma rstrip_idem s : Py.rstrip (Py.rstrip s) = Py.rstrip s.
Proof.
  induction s as [|c r IH]; [done|].
  simpl. destruct (Py.rstrip r) as [|c' r'] eqn:Hr.
  - destruct (Py.isspace c) eqn:Hc; [done|]. simpl. by rewrite Hc.
  - rewrite rstrip_cons_nonempty; [by rewrite IH|]. by rewrite IH.
Qed.

Lemma lstrip_rstrip s : Py.lstrip (Py.rstrip s) = Py.rstrip (Py.lstrip s).
Proof.
  induction s as [|c r IH]; [done|].
  destruct (Py.isspace c) eqn:Hc.
  - change (Py.lstrip (String c r)) with (if Py.isspace c then Py.lstrip r else String c r).
    rewrite Hc, <- IH. simpl.
    destruct (Py.rstrip r) as [|c' r']; rewrite ?Hc; [done|].
    simpl. by rewrite Hc.
  - rewrite rstrip_cons_keep by done. cbn [Py.lstrip]. rewrite Hc.
    by rewrite rstrip_cons_keep.
Qed.

Lemma strip_rstrip s : Py.strip (Py.rstrip s) = Py.strip s.
Proof. unfold Py.strip. by rewrite lstrip_rstrip, rstrip_idem. Qed.

Lemma lstrip_idem s : Py.lstrip (Py.lstrip s) = Py.lstrip s.
Proof.
  induction s as [|c r IH]; [done|]. simpl.
  destruct (Py.isspace c) eqn:Hc; [done|]. simpl. by rewrite Hc.
Qed.

Lemma strip_idem s : Py.strip (Py.strip s) = Py.strip s.
Proof.
  unfold Py.strip. by rewrite lstrip_rstrip, lstrip_idem, rstrip_idem.
Qed.

Lemma rstrip_app (x y : string) :
  Py.rstrip y <> "" -> Py.rstrip (x +:+ y) = x +:+ Py.rstrip y.
Proof.
  intros Hy. induction x as [|c x IH]; [done|].
  rewrite !sapp_cons, rstrip_cons_nonempty; rewrite IH; [done|].
  by destruct x.
Qed.

End StringFacts.

Section CommentExtractor.

Lemma fold_block_step groups acc :
  fold_left block_step groups acc
  = acc ++ map (fun s => ("comment_block", s))
             (List.filter Py.truthy (map Py.strip groups)).
Proof.
  revert acc. induction groups as [|g groups IH]; intros acc; simpl.
  - by rewrite app_nil_r.
  - rewrite IH. unfold block_step.
    destruct (Py.truthy (Py.strip g)); simpl; [|done].
    by rewrite <- app_assoc.
Qed.

Lemma flush_flush_runs items buff :
  flush items buff = items ++ map run_item (flush_runs buff).
Proof. destruct buff; simpl; [by rewrite app_nil_r | done]. Qed.

Lemma line_step_cases items buff ln :
  line_step (items, buff) ln
  = match comment_text ln with
    | Some t => (items, buff ++ [t])
    | None => (items ++ map run_item (flush_runs buff), [])
    end.
Proof.
  unfold line_step, comment_text.
  destruct (Py.startswith (Py.strip ln) "//"); [done|].
  destruct (Py.startswith (Py.strip ln) "#"); [done|].
  destruct buff; simpl; [by rewrite app_nil_r | done].
Qed.

Lemma fold_line_step lines items buff :
  (let '(items', buff') := fold_left line_step lines (items, buff) in
   flush items' buff')
  = items ++ map run_item (runs_from buff lines).
Proof.
  revert items buff. induction lines as [|ln lines IH]; intros items buff.
  - simpl. apply flush_flush_runs.
  - cbn [fold_left runs_from]. rewrite line_step_cases.
    destruct (comment_text ln) as [t|].
    + apply IH.
    + rewrite IH, map_app. by rewrite app_assoc.
Qed.

(** A pending buffer joins the run the lines start with, or is a run of
    its own. *)
Lemma runs_from_comment_runs lines buff :
  runs_from buff lines
  = match lines with
    | ln :: _ =>
        match comment_text ln, comment_runs lines with
        | Some _, run :: runs => (buff ++ run) :: runs
        | _, runs => flush_runs buff ++ runs
        end
    | [] => flush_runs buff
    end.
Proof.
  revert buff. induction lines as [|ln rest IH]; intros buff; [done|].
  cbn [runs_from comment_runs].
  destruct (comment_text ln) as [t|] eqn:Hln.
  - rewrite IH. destruct rest as [|next rest']; [by destruct buff|].
    destruct (comment_text next) as [t'|] eqn:Hnext.
    + destruct (comment_runs (next :: rest')) as [|run runs]; [|by rewrite <- app_assoc].
      by destruct buff.
    + by destruct buff.
  - f_equal. rewrite IH. destruct rest as [|next rest']; [done|].
    destruct (comment_text next), (comment_runs (next :: rest')); done.
Qed.

Lemma runs_from_nil lines : runs_from [] lines = comment_runs lines.
Proof.
  rewrite runs_from_comment_runs. destruct lines as [|ln rest]; [done|].
  destruct (comment_text ln), (comment_runs (ln :: rest)); done.
Qed.

Lemma parse_generic_comments_passes content :
  parse_generic_comments content
  = block_items content ++ run_items (Py.splitlines content).
Proof.
  unfold parse_generic_comments.
  pose proof (fold_line_step (Py.splitlines content)
                (fold_left block_step (cblock_finditer content) []) []) as H.
  destruct (fold_left line_step _ _) as [items buff].
  rewrite H, fold_block_step, runs_from_nil. done.
Qed.

End CommentExtractor.

Section Lines.

Lemma all_chars_app P (s t : string) :
  all_chars P (s +:+ t) = all_chars P s && all_chars P t.
Proof.
  induction s as [|c s IH]; [done|].
  rewrite sapp_cons. simpl. by rewrite IH, andb_assoc.
Qed.

Lemma cblock_go_star_free s : star_free s = true -> cblock_go None s = [].
Proof.
  induction s as [|c r IH]; [done|].
  unfold star_free. simpl. intros [Hc Hr]%andb_true_iff.
  specialize (IH Hr).
  destruct r as [|c' r'].
  - by destruct c as [[] [] [] [] [] [] [] []].
  - simpl in Hr. apply andb_true_iff in Hr as [Hc' Hr'].
    destruct (Ascii.eqb_spec c' "*") as [->|Hne]; [done|].
    destruct c as [[] [] [] [] [] [] [] []]; try exact IH.
    destruct c' as [[] [] [] [] [] [] [] []]; try exact IH.
    done.
Qed.

Lemma islinebreak_cr c : Py.islinebreak c = false -> Ascii.eqb c "013" = false.
Proof. destruct (Ascii.eqb_spec c "013") as [->|]; [by vm_compute|done]. Qed.

Lemma splitlines_go_line cur x rest :
  one_line x = true ->
  Py.splitlines_go cur (x +:+ nl +:+ rest)
  = (String.rev cur +:+ x) :: Py.splitlines_go "" rest.
Proof.
  revert cur. induction x as [|c x IH]; intros cur Hx.
  - rewrite sapp_empty_l, sapp_empty_r. done.
  - unfold one_line in Hx. simpl in Hx. apply andb_true_iff in Hx as [Hc Hx].
    apply negb_true_iff in Hc.
    rewrite sapp_cons. cbn [Py.splitlines_go].
    rewrite (islinebreak_cr _ Hc), Hc, IH by done.
    unfold String.rev. simpl. by rewrite !rev_app_app.
Qed.

Lemma splitlines_go_last cur x :
  one_line x = true -> String.rev cur +:+ x <> "" ->
  Py.splitlines_go cur x = [String.rev cur +:+ x].
Proof.
  revert cur. induction x as [|c x IH]; intros cur Hx Hne.
  - rewrite sapp_empty_r in *. simpl. destruct cur; done.
  - unfold one_line in Hx. simpl in Hx. apply andb_true_iff in Hx as [Hc Hx].
    apply negb_true_iff in Hc.
    cbn [Py.splitlines_go]. rewrite (islinebreak_cr _ Hc), Hc.
    assert (String.rev (String c cur) +:+ x = String.rev cur +:+ String c x) as E.
    { unfold String.rev. simpl. by rewrite !rev_app_app. }
    rewrite IH; [by rewrite E | done | by rewrite E].
Qed.

(** Lines without line boundary, the last one not empty, joined by
    newlines, split back into themselves. *)
Lemma splitlines_join lines :
  Forall (fun x => one_line x = true) lines -> last lines <> Some "" ->
  Py.splitlines (Py.join nl lines) = lines.
Proof.
  unfold Py.splitlines.
  induction lines as [|x lines IH]; intros Hall Hlast; [done|].
  apply Forall_cons in Hall as [Hx Hall].
  destruct lines as [|y lines].
  - apply (splitlines_go_last "" x); [done|].
    change (x <> ""). intros ->. done.
  - change (Py.join nl (x :: y :: lines)) with (x +:+ nl +:+ Py.join nl (y :: lines)).
    rewrite splitlines_go_line by done. by rewrite IH.
Qed.

Lemma comment_text_slashes l : comment_text ("//" +:+ l) = Some (Py.strip l).
Proof.
  unfold comment_text.
  assert (Py.strip ("//" +:+ l) = "//" +:+ Py.rstrip l) as ->.
  { unfold Py.strip. rewrite !sapp_cons, sapp_empty_l. cbn [Py.lstrip].
    change (Py.isspace "/") with false. cbn iota.
    rewrite !rstrip_cons_keep by reflexivity. reflexivity. }
  rewrite !sapp_cons, sapp_empty_l. simpl. by rewrite strip_rstrip.
Qed.

Lemma parse_generic_comments_block_then_lines l1 l2 l3 :
  one_line l1 = true -> one_line l2 = true -> one_line l3 = true ->
  star_free l1 = true -> star_free l2 = true -> star_free l3 = true ->
  parse_generic_comments
    (Py.join nl ["/* A */"; "//" +:+ l1; "//" +:+ l2; "//" +:+ l3])
  = [("comment_block", "A");
     ("comment_block", Py.strip (Py.join nl [Py.strip l1; Py.strip l2; Py.strip l3]))].
Proof.
  intros H1 H2 H3 S1 S2 S3.
  rewrite parse_generic_comments_passes.
  set (lines := ["/* A */"; "//" +:+ l1; "//" +:+ l2; "//" +:+ l3]).
  assert (cblock_finditer (Py.join nl lines) = [" A "]) as Hblocks.
  { unfold cblock_finditer, lines. cbn [Py.join].
    rewrite !sapp_cons, !sapp_empty_l. cbn [cblock_go].
    rewrite cblock_go_star_free; [done|].
    unfold star_free in *.
    repeat (progress (rewrite ?all_chars_app; cbn [all_chars])).
    rewrite S1, S2, S3. done. }
  assert (Py.splitlines (Py.join nl lines) = lines) as Hlines.
  { apply splitlines_join.
    - unfold one_line in *.
      repeat constructor; rewrite ?all_chars_app, ?H1, ?H2, ?H3; done.
    - simpl. by rewrite !sapp_cons. }
  unfold block_items, run_items. rewrite Hblocks, Hlines.
  unfold lines. cbn [comment_runs]. rewrite !comment_text_slashes. done.
Qed.

End Lines.

Section StripFacts.

Lemma rstrip_app_cases (x y : string) :
  Py.rstrip (x +:+ y)
  = match Py.rstrip y with "" => Py.rstrip x | _ => x +:+ Py.rstrip y end.
Proof.
  induction x as [|c x IH].
  - rewrite !sapp_empty_l. by destruct (Py.rstrip y).
  - rewrite sapp_cons. cbn [Py.rstrip]. rewrite IH.
    destruct (Py.rstrip y) as [|c' y']; [done|].
    rewrite !sapp_cons. by destruct x.
Qed.

Lemma lstrip_head s c r : Py.lstrip s = String c r -> Py.isspace c = false.
Proof.
  induction s as [|a s IH]; [done|]. simpl.
  destruct (Py.isspace a) eqn:Ha; [done|]. by intros [= <- <-].
Qed.

Lemma rstrip_head s c r :
  Py.rstrip s = String c r -> exists r', s = String c r'.
Proof.
  destruct s as [|a s]; [done|]. simpl.
  destruct (Py.rstrip s); [destruct (Py.isspace a)|]; intros [= <- <-]; eauto.
Qed.

Lemma strip_head s c r : Py.strip s = String c r -> Py.isspace c = false.
Proof.
  unfold Py.strip. intros H.
  destruct (rstrip_head _ _ _ H) as [r' Hr']. by eapply lstrip_head.
Qed.

Lemma rstrip_strip s : Py.rstrip (Py.strip s) = Py.strip s.
Proof. unfold Py.strip. apply rstrip_idem. Qed.

Lemma lstrip_app_head c r y :
  Py.isspace c = false -> Py.lstrip (String c r +:+ y) = String c r +:+ y.
Proof. intros Hc. rewrite sapp_cons. simpl. by rewrite Hc. Qed.

End StripFacts.

Section StructuredExtractor.

Variable cleandoc : string -> string.

Lemma docstring_or_empty_default node_body :
  docstring_or_empty cleandoc node_body
  = default "" (ast.get_docstring cleandoc node_body).
Proof.
  unfold docstring_or_empty.
  destruct (ast.get_docstring cleandoc node_body) as [[|c d]|]; done.
Qed.

Lemma fold_method_step class_body acc :
  fold_left (method_step cleandoc) class_body acc
  = acc ++ direct_methods cleandoc class_body.
Proof.
  revert acc. induction class_body as [|elt class_body IH]; intros acc.
  - by rewrite app_nil_r.
  - cbn [fold_left]. rewrite IH. unfold direct_methods, trimmed_doc.
    destruct elt; cbn [method_step omap list_omap];
      rewrite ?docstring_or_empty_default, <- ?app_assoc; done.
Qed.

Lemma method_line_step_line acc m :
  method_line_step acc m = acc +:+ method_line m +:+ nl.
Proof.
  unfold method_line_step, method_line, Py.or_else.
  by rewrite !sapp_assoc.
Qed.

Lemma fold_method_line_step methods acc :
  fold_left method_line_step methods acc
  = acc +:+ foldr (fun m rest => method_line m +:+ nl +:+ rest) "" methods.
Proof.
  revert acc. induction methods as [|m methods IH]; intros acc.
  - by rewrite sapp_empty_r.
  - cbn [fold_left foldr]. rewrite IH, method_line_step_line.
    by rewrite !sapp_assoc.
Qed.

Lemma class_item_text name class_body :
  class_item cleandoc name class_body
  = ("class " +:+ name, class_body_text cleandoc class_body).
Proof.
  unfold class_item, class_body_text, Py.or_else. f_equal.
  rewrite fold_method_step, app_nil_l, docstring_or_empty_default.
  fold (trimmed_doc cleandoc class_body).
  assert (match direct_methods cleandoc class_body with
          | [] => trimmed_doc cleandoc class_body
          | _ :: _ =>
              fold_left method_line_step (direct_methods cleandoc class_body)
                (trimmed_doc cleandoc class_body +:+ nl +:+ nl +:+ "Methods:" +:+ nl)
          end
          = trimmed_doc cleandoc class_body
            +:+ methods_section (direct_methods cleandoc class_body)) as ->; [|done].
  destruct (direct_methods cleandoc class_body) as [|m ms].
  - by rewrite sapp_empty_r.
  - rewrite fold_method_line_step. unfold methods_section.
    by rewrite !sapp_assoc.
Qed.

Lemma node_step_item items node :
  node_step cleandoc items node
  = items ++ option_list (statement_item cleandoc node).
Proof.
  destruct node; cbn [node_step statement_item option_list];
    rewrite ?app_nil_r, ?class_item_text, ?docstring_or_empty_default; done.
Qed.

Lemma fold_node_step stmts acc :
  fold_left (node_step cleandoc) stmts acc
  = acc ++ omap (statement_item cleandoc) stmts.
Proof.
  revert acc. induction stmts as [|node stmts IH]; intros acc.
  - by rewrite app_nil_r.
  - cbn [fold_left]. rewrite IH, node_step_item, <- app_assoc. f_equal.
    cbn [omap list_omap]. by destruct (statement_item cleandoc node).
Qed.

Lemma module_items_spec module :
  module_items cleandoc module
  = module_doc_item cleandoc module
    ++ omap (statement_item cleandoc) (ast.body module).
Proof. unfold module_items. by rewrite fold_node_step. Qed.

End StructuredExtractor.

Section ClassBody.

Variable cleandoc : string -> string.

Lemma direct_methods_trimmed class_body :
  Forall (fun m => Py.rstrip m.2 = m.2) (direct_methods cleandoc class_body).
Proof.
  unfold direct_methods.
  induction class_body as [|elt class_body IH]; [constructor|].
  destruct elt; cbn [omap list_omap]; try done;
    constructor; try done; apply rstrip_strip.
Qed.

Lemma rstrip_method_line m :
  Py.rstrip m.2 = m.2 ->
  Py.rstrip (method_line m) = method_line m /\ method_line m <> "".
Proof.
  intros Hm. unfold method_line. split; [|done].
  rewrite <- !sapp_assoc. rewrite rstrip_app_cases.
  destruct (Py.truthy m.2) eqn:Ht.
  - rewrite Hm. by destruct m.2.
  - reflexivity.
Qed.

Lemma rstrip_method_lines methods :
  methods <> [] -> Forall (fun m => Py.rstrip m.2 = m.2) methods ->
  Py.rstrip (foldr (fun m rest => method_line m +:+ nl +:+ rest) "" methods)
  = Py.join nl (map method_line methods)
  /\ Py.join nl (map method_line methods) <> "".
Proof.
  induction methods as [|m methods IH]; [done|]. intros _ Hall.
  apply Forall_cons in Hall as [Hm Hall].
  destruct (rstrip_method_line m Hm) as [Hline Hne].
  destruct methods as [|m' methods].
  - cbn [foldr map Py.join]. split; [|done].
    rewrite rstrip_app_cases. exact Hline.
  - destruct IH as [IH IHne]; [done..|].
    cbn [foldr map] in *. split.
    + rewrite <- sapp_assoc, rstrip_app_cases, IH.
      change (Py.join nl (method_line m :: method_line m' :: map method_line methods))
        with (method_line m +:+ nl +:+ Py.join nl (method_line m' :: map method_line methods)).
      rewrite sapp_assoc.
      by destruct (Py.join nl (method_line m' :: map method_line methods)).
    + change (Py.join nl (method_line m :: method_line m' :: map method_line methods))
        with (method_line m +:+ nl +:+ Py.join nl (method_line m' :: map method_line methods)).
      unfold method_line at 1. done.
Qed.

(** With at least one method the trimmed body is the docstring, a blank
    line, the heading and the method lines, the last newline trimmed
    away. *)
Lemma class_body_text_methods class_body :
  direct_methods cleandoc class_body <> [] ->
  class_body_text cleandoc class_body
  = methods_text (trimmed_doc cleandoc class_body)
      (direct_methods cleandoc class_body).
Proof.
  intros Hne. unfold class_body_text, methods_text.
  pose proof (direct_methods_trimmed class_body) as Hall.
  destruct (rstrip_method_lines _ Hne Hall) as [Hlines Hlines_ne].
  set (ms := direct_methods cleandoc class_body) in *.
  set (text := Py.join nl (map method_line ms)) in *.
  assert (methods_section ms
          = nl +:+ nl +:+ "Methods:" +:+ nl
            +:+ foldr (fun m rest => method_line m +:+ nl +:+ rest) "" ms) as ->.
  { unfold methods_section. by destruct ms. }
  assert (Py.rstrip ("Methods:" +:+ nl
            +:+ foldr (fun m rest => method_line m +:+ nl +:+ rest) "" ms)
          = "Methods:" +:+ nl +:+ text) as Hsection.
  { rewrite <- sapp_assoc, rstrip_app_cases, Hlines, sapp_assoc. by destruct text. }
  assert (forall prefix,
            Py.rstrip (prefix +:+ "Methods:" +:+ nl
              +:+ foldr (fun m rest => method_line m +:+ nl +:+ rest) "" ms)
            = prefix +:+ "Methods:" +:+ nl +:+ text) as Hfull.
  { intros prefix. rewrite rstrip_app; rewrite Hsection; done. }
  unfold trimmed_doc.
  destruct (Py.strip (default "" (ast.get_docstring cleandoc class_body)))
    as [|c doc] eqn:Hdoc.
  - rewrite !sapp_empty_l. unfold Py.strip.
    change (Py.lstrip (nl +:+ nl +:+ ?s)) with (Py.lstrip s).
    change (Py.lstrip ("Methods:" +:+ ?s)) with ("Methods:" +:+ s).
    rewrite Hsection. done.
  - pose proof (strip_head _ _ _ Hdoc) as Hc.
    unfold Py.strip. rewrite lstrip_app_head by done.
    rewrite <- !(sapp_assoc (String c doc)), <- !(sapp_assoc (String c doc +:+ nl)).
    rewrite Hfull. done.
Qed.

Lemma class_body_text_no_methods class_body :
  direct_methods cleandoc class_body = [] ->
  class_body_text cleandoc class_body
  = if Py.truthy (trimmed_doc cleandoc class_body)
    then trimmed_doc cleandoc class_body else "(no doc)".
Proof.
  intros Hnone. unfold class_body_text. rewrite Hnone.
  cbn [methods_section]. rewrite sapp_empty_r.
  unfold trimmed_doc. by rewrite strip_idem.
Qed.

End ClassBody.

Section GraphShape.

Variable ast_parse : string -> option ast.Mod.
Variable cleandoc : string -> string.
Variable alloc : nat -> nat.
Variable read_text : string -> string.

Local Abbreviation items := (items_of ast_parse cleandoc read_text).
Local Abbreviation blocks := (layout ast_parse cleandoc alloc read_text).
Local Abbreviation fstep := (file_step ast_parse cleandoc alloc read_text).
Local Abbreviation graph := (build_graph ast_parse cleandoc alloc read_text).

Lemma doc_nodes_length n path items :
  length (doc_nodes alloc n path items) = length items.
Proof. revert n. induction items; intros n; simpl; auto. Qed.

Lemma fold_item_step path file_node items g :
  fold_left (item_step alloc path file_node) items g
  = let ds := doc_nodes alloc (length (nodes g)) path items in
    {| nodes := nodes g ++ ds; edges := edges g ++ block_edges (file_node, ds) |}.
Proof.
  revert g. induction items as [|it items IH]; intros [ns es].
  - simpl. unfold block_edges. simpl. by rewrite !app_nil_r.
  - cbn [fold_left]. rewrite IH. unfold item_step, add_node, add_edge.
    cbn [nodes edges fst snd]. rewrite length_app, Nat.add_1_r.
    cbn [doc_nodes]. unfold block_edges. cbn [fst snd map].
    by rewrite <- !app_assoc.
Qed.

Lemma file_step_shape g path :
  fstep g path
  = let n := length (nodes g) in
    let b := (file_node_at alloc read_text n path,
              doc_nodes alloc (S n) path (items path)) in
    {| nodes := nodes g ++ block_nodes b; edges := edges g ++ block_edges b |}.
Proof.
  destruct g as [ns es]. unfold file_step, add_node.
  rewrite fold_item_step. cbn [nodes edges].
  rewrite length_app, Nat.add_1_r. unfold block_nodes. cbn [fst snd].
  by rewrite <- app_assoc.
Qed.

Lemma fold_file_step paths g :
  fold_left fstep paths g
  = let L := blocks (length (nodes g)) paths in
    {| nodes := nodes g ++ flat_map block_nodes L;
       edges := edges g ++ flat_map block_edges L |}.
Proof.
  revert g. induction paths as [|path paths IH]; intros g.
  - destruct g. simpl. by rewrite !app_nil_r.
  - cbn [fold_left]. rewrite IH, file_step_shape.
    cbn [nodes edges layout flat_map]. f_equal.
    + rewrite length_app. cbn [block_nodes length fst snd].
      rewrite !doc_nodes_length, <- app_assoc. do 4 f_equal. lia.
    + rewrite length_app. cbn [block_nodes length fst snd].
      rewrite !doc_nodes_length, <- app_assoc. do 4 f_equal. lia.
Qed.

Lemma build_graph_shape paths :
  graph paths
  = {| nodes := flat_map block_nodes (blocks 0 paths);
       edges := flat_map block_edges (blocks 0 paths) |}.
Proof. unfold build_graph. by rewrite fold_file_step. Qed.

End GraphShape.

Section Linking.

Variable ast_parse : string -> option ast.Mod.
Variable cleandoc : string -> string.
Variable alloc : nat -> nat.
Variable read_text : string -> string.

Local Abbreviation items := (items_of ast_parse cleandoc read_text).
Local Abbreviation blocks := (layout ast_parse cleandoc alloc read_text).
Local Abbreviation graph := (build_graph ast_parse cleandoc alloc read_text).

Lemma items_nonempty path : items path <> [].
Proof.
  unfold items_of, or_placeholder.
  by destruct (extract ast_parse cleandoc path (read_text path)).
Qed.

Lemma filter_doc_nodes n path its :
  List.filter (fun x => String.eqb (j_type x) "file") (doc_nodes alloc n path its) = [].
Proof. revert n. induction its as [|it its IH]; intros n; simpl; auto. Qed.

Lemma filter_block_nodes n paths :
  List.filter (fun x => String.eqb (j_type x) "file")
    (flat_map block_nodes (blocks n paths))
  = map fst (blocks n paths).
Proof.
  revert n. induction paths as [|path paths IH]; intros n; [done|].
  cbn [layout flat_map map fst block_nodes snd app List.filter file_node_at j_type].
  change (String.eqb "file" "file") with true. cbn iota.
  by rewrite List.filter_app, filter_doc_nodes, IH.
Qed.

Lemma find_nodes_graph paths :
  find_nodes (graph paths) "file" = map fst (blocks 0 paths).
Proof.
  unfold find_nodes. rewrite build_graph_shape. apply filter_block_nodes.
Qed.

(** The file node of a block is an allocation not before the first of
    the layout. *)
Lemma blocks_ids n paths :
  Forall (fun b => exists m, n <= m /\ node_id b.1 = alloc m) (blocks n paths).
Proof.
  revert n. induction paths as [|path paths IH]; intros n; [constructor|].
  cbn [layout]. constructor; [by exists n|].
  eapply Forall_impl; [apply IH|]. intros b (m & Hm & Hid). exists m. split; [lia|done].
Qed.

Lemma blocks_docs_nonempty n paths :
  Forall (fun b => b.2 <> []) (blocks n paths).
Proof.
  revert n. induction paths as [|path paths IH]; intros n; [constructor|].
  cbn [layout]. constructor; [|apply IH]. cbn [snd].
  pose proof (items_nonempty path). by destruct (items path).
Qed.

Lemma filter_block_same f b :
  node_is b.1 f = true -> List.filter (is_linked f) (block_edges b) = block_edges b.
Proof.
  intros Hf. unfold block_edges. induction b.2 as [|d ds IH]; [done|].
  cbn [map List.filter]. unfold is_linked at 1. cbn [edge_j_type dest].
  rewrite Hf. change (String.eqb "for_file" "for_file") with true.
  cbn [andb]. by rewrite IH.
Qed.

Lemma filter_block_other f b :
  node_is b.1 f = false -> List.filter (is_linked f) (block_edges b) = [].
Proof.
  intros Hf. unfold block_edges. induction b.2 as [|d ds IH]; [done|].
  cbn [map List.filter]. unfold is_linked at 1. cbn [edge_j_type dest].
  rewrite Hf, andb_false_r. exact IH.
Qed.

Lemma filter_blocks_other f (L : list (Node * list Node)) :
  Forall (fun b => node_is b.1 f = false) L ->
  List.filter (is_linked f) (flat_map block_edges L) = [].
Proof.
  induction 1 as [|b L Hb _ IH]; [done|].
  cbn [flat_map]. by rewrite List.filter_app, filter_block_other, IH.
Qed.

Lemma map_source_block_edges b : map source (block_edges b) = b.2.
Proof. unfold block_edges. rewrite map_map. cbn [source]. apply map_id. Qed.

Hypothesis alloc_inj : forall m n, alloc m = alloc n -> m = n.

Lemma node_is_alloc (a b : Node) m n :
  node_id a = alloc m -> node_id b = alloc n -> m <> n -> node_is a b = false.
Proof.
  intros Ha Hb Hne. unfold node_is. rewrite Ha, Hb.
  apply Nat.eqb_neq. intros Heq. by apply Hne, alloc_inj.
Qed.

(** The edges that point at the file node of a block are the edges of
    that block. *)
Lemma filter_blocks_lookup n paths k b :
  blocks n paths !! k = Some b ->
  List.filter (is_linked b.1) (flat_map block_edges (blocks n paths))
  = block_edges b.
Proof.
  revert n k. induction paths as [|path paths IH]; intros n k; [done|].
  cbn [layout flat_map]. rewrite List.filter_app.
  set (ds := doc_nodes alloc (S n) path (items path)).
  destruct k as [|k]; cbn [lookup list_lookup].
  - intros [= <-]. cbn [fst].
    rewrite filter_block_same by apply Nat.eqb_refl.
    rewrite filter_blocks_other; [by rewrite app_nil_r|].
    eapply Forall_impl; [apply blocks_ids|]. intros b' (m & Hm & Hid).
    eapply node_is_alloc; [exact Hid|reflexivity|lia].
  - intros Hk. rewrite (IH _ _ Hk).
    rewrite filter_block_other; [done|]. cbn [fst].
    pose proof (blocks_ids (S n + length ds) paths) as Hids.
    rewrite Forall_lookup in Hids. destruct (Hids _ _ Hk) as (m & Hm & Hid).
    eapply node_is_alloc; [reflexivity|exact Hid|lia].
Qed.

Lemma linked_docs_graph paths k b :
  blocks 0 paths !! k = Some b -> linked_docs (graph paths) b.1 = b.2.
Proof.
  intros Hk. unfold linked_docs. rewrite build_graph_shape. cbn [edges].
  change (fun e => String.eqb (edge_j_type e) "for_file" && node_is (dest e) b.1)
    with (is_linked b.1).
  by rewrite (filter_blocks_lookup _ _ _ _ Hk), map_source_block_edges.
Qed.

End Linking.

Section Rendering.

Variable ast_parse : string -> option ast.Mod.
Variable cleandoc : string -> string.
Variable alloc : nat -> nat.
Variable read_text : string -> string.

Local Abbreviation items := (items_of ast_parse cleandoc read_text).
Local Abbreviation blocks := (layout ast_parse cleandoc alloc read_text).
Local Abbreviation graph := (build_graph ast_parse cleandoc alloc read_text).

Lemma props_get_title n path it : props_get (doc_node_at alloc n path it) "title" "" = it.1.
Proof. unfold props_get, doc_node_at, doc_props. cbn [props]. by rewrite lookup_insert_eq. Qed.

Lemma props_get_body n path it :
  props_get (doc_node_at alloc n path it) "body" "(no description)"
  = Py.or_else it.2 "(no description)".
Proof.
  unfold props_get, doc_node_at, doc_props. cbn [props].
  rewrite lookup_insert_ne by done. by rewrite lookup_insert_eq.
Qed.

Lemma fold_doc_step n path its lines :
  fold_left doc_step (doc_nodes alloc n path its) lines
  = lines ++ flat_map item_lines its.
Proof.
  revert n lines. induction its as [|it its IH]; intros n lines.
  - by rewrite app_nil_r.
  - cbn [doc_nodes fold_left flat_map]. rewrite IH. unfold doc_step.
    rewrite props_get_title, props_get_body. unfold item_lines.
    by rewrite <- !app_assoc.
Qed.

Lemma blocks_length n paths : length (blocks n paths) = length paths.
Proof. revert n. induction paths; intros n; simpl; auto. Qed.

Lemma blocks_lookup_path n paths k b path :
  blocks n paths !! k = Some b -> paths !! k = Some path ->
  exists m, b = (file_node_at alloc read_text m path,
                 doc_nodes alloc (S m) path (items path)).
Proof.
  revert n k. induction paths as [|p paths IH]; intros n k; [done|].
  destruct k as [|k]; cbn [layout lookup list_lookup].
  - intros [= <-] [= <-]. by exists n.
  - apply IH.
Qed.

Hypothesis alloc_inj : forall m n, alloc m = alloc n -> m = n.

Lemma render_block paths k b path :
  blocks 0 paths !! k = Some b -> paths !! k = Some path ->
  props b.1 !! "path" = Some path
  /\ render (graph paths) b.1 path = markdown path (items path).
Proof.
  intros Hb Hpath.
  destruct (blocks_lookup_path _ _ _ _ _ Hb Hpath) as [m Hm].
  split.
  - rewrite Hm. cbn [fst file_node_at props]. unfold file_props.
    by rewrite lookup_insert_eq.
  - unfold render. rewrite (linked_docs_graph _ _ _ _ alloc_inj _ _ _ Hb).
    rewrite Hm. cbn [snd].
    pose proof (items_nonempty ast_parse cleandoc read_text path) as Hne.
    destruct (items path) as [|it its] eqn:Hits; [done|].
    cbn [doc_nodes]. rewrite <- Hits.
    change (doc_node_at alloc (S m) path it :: doc_nodes alloc (S (S m)) path its)
      with (doc_nodes alloc (S m) path (it :: its)).
    rewrite <- Hits, fold_doc_step. done.
Qed.

Variable readable : string -> bool.
Variable writable : string -> string -> bool.

Local Abbreviation accepted' := (accepted ast_parse cleandoc read_text writable).

Lemma fold_render_step_none g fs : fold_left (render_step writable g) fs None = None.
Proof. induction fs as [|f fs IH]; [done | exact IH]. Qed.

Lemma fold_render_step g fs paths w :
  Forall2 (fun f path =>
             props f !! "path" = Some path
             /\ render g f path = markdown path (items path)) fs paths ->
  fold_left (render_step writable g) fs (Some w)
  = if forallb accepted' paths
    then Some (fold_left (emit ast_parse cleandoc read_text) paths w)
    else None.
Proof.
  intros H. revert w. induction H as [|f path fs paths [Hp Hr] _ IH]; intros w; [done|].
  cbn [fold_left forallb].
  assert (render_step writable g (Some w) f
          = if accepted' path then Some (emit ast_parse cleandoc read_text w path) else None)
    as ->.
  { unfold render_step, write_text, accepted, emit. cbn [mbind option_bind].
    rewrite Hp. cbn [mbind option_bind]. rewrite Hr.
    by destruct (writable _ _). }
  destruct (accepted' path); cbn [andb]; [apply IH | apply fold_render_step_none].
Qed.

Lemma render_all_graph paths w :
  render_all writable (graph paths) w
  = if forallb accepted' paths
    then Some (fold_left (emit ast_parse cleandoc read_text) paths w)
    else None.
Proof.
  unfold render_all. rewrite find_nodes_graph. apply fold_render_step.
  apply Forall2_same_length_lookup_2.
  - by rewrite length_map, blocks_length.
  - intros k f path Hf Hpath. rewrite list_lookup_fmap in Hf.
    destruct (blocks 0 paths !! k) as [b|] eqn:Hb; [|done].
    injection Hf as <-. by eapply render_block.
Qed.

Lemma fold_read_step_none paths :
  fold_left (read_step ast_parse cleandoc alloc read_text readable) paths None = None.
Proof. induction paths as [|p paths IH]; [done | exact IH]. Qed.

Lemma fold_read_step paths g :
  fold_left (read_step ast_parse cleandoc alloc read_text readable) paths (Some g)
  = if forallb readable paths
    then Some (fold_left (file_step ast_parse cleandoc alloc read_text) paths g)
    else None.
Proof.
  revert g. induction paths as [|p paths IH]; intros g; [done|].
  cbn [fold_left forallb]. unfold read_step at 2. cbn [mbind option_bind].
  destruct (readable p); cbn [andb]; [apply IH | apply fold_read_step_none].
Qed.

(** The first loop gives the graph unless a read raises. *)
Lemma first_loop_spec paths :
  first_loop ast_parse cleandoc alloc read_text readable paths
  = if forallb readable paths then Some (graph paths) else None.
Proof. apply fold_read_step. Qed.

(** [main] returns exactly when no read and no write raises, and then it
    has written the markdown of every discovered file, in order. *)
Lemma main_spec walk w :
  main ast_parse cleandoc alloc read_text readable writable walk w
  = if forallb readable (enumerate walk) && forallb accepted' (enumerate walk)
    then Some (print (fold_left (emit ast_parse cleandoc read_text) (enumerate walk) w)
                 match enumerate walk with
                 | [] => "No source files found in src."
                 | _ => "Done. Check the docs folder."
                 end)
    else None.
Proof.
  unfold main. destruct (enumerate walk) as [|p ps] eqn:Hps; [done|].
  rewrite first_loop_spec.
  destruct (forallb readable (p :: ps)); cbn [andb mbind option_bind]; [|done].
  rewrite render_all_graph. by destruct (forallb accepted' (p :: ps)).
Qed.

Lemma main_returned walk w w' :
  main ast_parse cleandoc alloc read_text readable writable walk w = Some w' ->
  forallb readable (enumerate walk) = true
  /\ forallb accepted' (enumerate walk) = true
  /\ w' = print (fold_left (emit ast_parse cleandoc read_text) (enumerate walk) w)
             match enumerate walk with
             | [] => "No source files found in src."
             | _ => "Done. Check the docs folder."
             end.
Proof.
  rewrite main_spec.
  destruct (forallb readable (enumerate walk)); [|done].
  destruct (forallb accepted' (enumerate walk)); [|done].
  by intros [= <-].
Qed.

End Rendering.

Section Invariant.

Variable ast_parse : string -> option ast.Mod.
Variable cleandoc : string -> string.
Variable alloc : nat -> nat.
Variable read_text : string -> string.

Local Abbreviation step' := (step ast_parse cleandoc alloc read_text).
Local Abbreviation start := initial.

Lemma edge_ok_add_node g jt ps e :
  edge_ok g e -> edge_ok (add_node alloc g jt ps).1 e.
Proof.
  unfold edge_ok, add_node. cbn [fst nodes].
  intros (? & ? & ? & ? & ?). rewrite !elem_of_app. tauto.
Qed.

Lemma config_ok_initial paths : config_ok (start paths).
Proof. split; [constructor|done]. Qed.

Lemma config_ok_step c c' : step' c c' -> config_ok c -> config_ok c'.
Proof.
  unfold config_ok, is_file_of, is_doc_of.
  destruct 1 as [g path todo g' file_node Hadd
                |g path file_node it its todo g' doc_node Hadd
                |g path file_node doc_node its todo g' e Hadd
                |g path file_node todo]; cbn [cfg_graph cfg_phase].
  - injection Hadd as <- <-. intros [Hedges _]. split.
    + cbn [edges]. eapply Forall_impl; [exact Hedges|].
      intros e. apply edge_ok_add_node.
    + cbn [j_type nodes]. split; [done|]. rewrite elem_of_app, list_elem_of_singleton. auto.
  - injection Hadd as <- <-. intros [Hedges [Hf Hin]]. split.
    + cbn [edges]. eapply Forall_impl; [exact Hedges|].
      intros e. apply edge_ok_add_node.
    + cbn [j_type nodes]. rewrite !elem_of_app, !list_elem_of_singleton. repeat split; auto.
  - injection Hadd as <- <-. intros [Hedges [[Hf Hfin] [Hd Hdin]]]. split; [|done].
    cbn [edges nodes]. apply Forall_app. split; [exact Hedges|].
    constructor; [|constructor]. by repeat split.
  - intros [Hedges _]. done.
Qed.

Lemma config_ok_reachable paths c : rtc step' (start paths) c -> config_ok c.
Proof.
  revert c. apply rtc_ind_r.
  - apply config_ok_initial.
  - intros c1 c2 _ Hstep Hok. by eapply config_ok_step.
Qed.

(** The functions [item_step], [file_step] and [build_graph] run the
    transition system. *)
Lemma items_run path file_node its g todo :
  rtc step' (mkConfig g (AtItem path file_node its) todo)
    (mkConfig (fold_left (item_step alloc path file_node) its g) AtFile todo).
Proof.
  revert g. induction its as [|it its IH]; intros g.
  - apply rtc_once. constructor.
  - cbn [fold_left]. eapply rtc_l; [by eapply step_doc|].
    eapply rtc_l; [by eapply step_edge|]. apply IH.
Qed.

Lemma files_run paths g :
  rtc step' (mkConfig g AtFile paths)
    (mkConfig (fold_left (file_step ast_parse cleandoc alloc read_text) paths g)
       AtFile []).
Proof.
  revert g. induction paths as [|path paths IH]; intros g; [done|].
  cbn [fold_left]. eapply rtc_l; [by eapply step_file|].
  etrans; [apply items_run|]. apply IH.
Qed.

Lemma build_graph_reachable paths :
  reachable ast_parse cleandoc alloc read_text paths
    (build_graph ast_parse cleandoc alloc read_text paths).
Proof. eexists. split; [apply files_run|done]. Qed.

End Invariant.

Section Walk.

Lemma fold_walk_file_step root files acc :
  fold_left (walk_file_step root) files acc
  = acc ++ map (Path.joinpath root) (List.filter allowed files).
Proof.
  revert acc. induction files as [|fn files IH]; intros acc.
  - by rewrite app_nil_r.
  - cbn [fold_left List.filter]. rewrite IH. unfold walk_file_step.
    destruct (allowed fn); [|done]. by rewrite <- app_assoc.
Qed.

Lemma fold_walk_dir_step walk acc :
  fold_left walk_dir_step walk acc
  = acc ++ flat_map (fun e => map (Path.joinpath e.1) (List.filter allowed e.2)) walk.
Proof.
  revert acc. induction walk as [|e walk IH]; intros acc.
  - by rewrite app_nil_r.
  - cbn [fold_left flat_map]. rewrite IH. unfold walk_dir_step.
    by rewrite fold_walk_file_step, <- app_assoc.
Qed.

(** The discovered paths: every allowed entry of every directory, in the
    order of the walk. *)
Lemma enumerate_spec walk :
  enumerate walk
  = flat_map (fun e => map (Path.joinpath e.1) (List.filter allowed e.2)) walk.
Proof. unfold enumerate. by rewrite fold_walk_dir_step. Qed.

Lemma elem_of_enumerate walk path :
  path ∈ enumerate walk
  <-> exists root files fn,
        (root, files) ∈ walk /\ fn ∈ files /\ allowed fn = true
        /\ path = Path.joinpath root fn.
Proof.
  rewrite enumerate_spec, list_elem_of_In, in_flat_map. split.
  - intros ([root files] & Hin & Hp). cbn [fst snd] in Hp.
    apply in_map_iff in Hp as (fn & <- & Hfn). apply filter_In in Hfn as [Hfn Hal].
    exists root, files, fn. by rewrite !list_elem_of_In.
  - intros (root & files & fn & Hin & Hfn & Hal & ->).
    exists (root, files). rewrite <- list_elem_of_In. split; [done|].
    cbn [fst snd]. apply in_map, filter_In. by rewrite <- list_elem_of_In.
Qed.

End Walk.

Section Paths.

Lemma rfind_slash_free fn : slash_free fn = true -> Py.rfind "/" fn = None.
Proof.
  induction fn as [|c fn IH]; [done|]. unfold slash_free. simpl.
  intros [Hc Hfn]%andb_true_iff. rewrite (IH Hfn).
  by apply negb_true_iff in Hc as ->.
Qed.

Lemma rfind_joinpath root fn :
  slash_free fn = true ->
  Py.rfind "/" (Path.joinpath root fn) = Some (String.length root).
Proof.
  intros Hfn. unfold Path.joinpath. induction root as [|c root IH].
  - rewrite sapp_empty_l, sapp_cons, sapp_empty_l. simpl. by rewrite rfind_slash_free.
  - rewrite sapp_cons. cbn [Py.rfind String.length]. by rewrite IH.
Qed.

Lemma drop_joinpath root fn :
  Py.drop (S (String.length root)) (Path.joinpath root fn) = fn.
Proof.
  unfold Path.joinpath. induction root as [|c root IH]; [done|].
  rewrite sapp_cons. cbn [String.length Py.drop]. exact IH.
Qed.

(** The name of a discovered path is the directory entry. *)
Lemma name_joinpath root fn :
  slash_free fn = true -> Path.name (Path.joinpath root fn) = fn.
Proof.
  intros Hfn. unfold Path.name. by rewrite rfind_joinpath, drop_joinpath.
Qed.

Lemma length_app_string (s t : string) :
  String.length (s +:+ t) = String.length s + String.length t.
Proof. induction s as [|c s IH]; [done|]. rewrite sapp_cons. simpl. by rewrite IH. Qed.

Lemma sapp_inj_r (s1 s2 t : string) : s1 +:+ t = s2 +:+ t -> s1 = s2.
Proof.
  revert s2. induction s1 as [|c s1 IH]; intros [|c' s2] H.
  - done.
  - apply (f_equal String.length) in H.
    rewrite sapp_cons, sapp_empty_l in H. cbn [String.length] in H.
    rewrite length_app_string in H. lia.
  - apply (f_equal String.length) in H.
    rewrite sapp_cons, sapp_empty_l in H. cbn [String.length] in H.
    rewrite length_app_string in H. lia.
  - rewrite !sapp_cons in H. injection H as -> H. f_equal. by apply IH.
Qed.

Lemma out_path_name p : out_path p = "docs/" +:+ Path.name p +:+ ".md".
Proof. reflexivity. Qed.

Lemma out_path_inj p q : out_path p = out_path q -> Path.name p = Path.name q.
Proof.
  rewrite !out_path_name. intros H. apply String.app_inj in H. by apply sapp_inj_r in H.
Qed.

End Paths.

Section Output.

Variable ast_parse : string -> option ast.Mod.
Variable cleandoc : string -> string.
Variable read_text : string -> string.

Local Abbreviation items := (items_of ast_parse cleandoc read_text).
Local Abbreviation emit' := (emit ast_parse cleandoc read_text).

Lemma stdout_emit paths w :
  stdout (fold_left emit' paths w)
  = stdout w ++ map (fun p => "Wrote " +:+ out_path p) paths.
Proof.
  revert w. induction paths as [|p paths IH]; intros w.
  - by rewrite app_nil_r.
  - cbn [fold_left map]. rewrite IH. cbn [emit print stdout].
    by rewrite <- app_assoc.
Qed.

Lemma docs_emit_other paths w out :
  out ∉ map out_path paths ->
  docs (fold_left emit' paths w) !! out = docs w !! out.
Proof.
  revert w. induction paths as [|p paths IH]; intros w Hout; [done|].
  cbn [map] in Hout. apply not_elem_of_cons in Hout as [Hne Hout].
  cbn [fold_left]. rewrite IH by done.
  cbn [emit print docs]. by rewrite lookup_insert_ne.
Qed.

(** A written file holds the markdown of the last discovered file with
    that output path, whatever the directory held before. *)
Lemma docs_emit_written paths w out :
  out ∈ map out_path paths ->
  exists p, p ∈ paths /\ out_path p = out
            /\ docs (fold_left emit' paths w) !! out = Some (markdown p (items p))
            /\ forall w', docs (fold_left emit' paths w') !! out
                          = Some (markdown p (items p)).
Proof.
  revert w. induction paths as [|q paths IH]; intros w Hout.
  - by apply elem_of_nil in Hout.
  - cbn [fold_left].
    destruct (decide (out ∈ map out_path paths)) as [Hin|Hnotin].
    + destruct (IH (emit' w q) Hin) as (p & Hp & Hout_p & Hdocs & Hany).
      exists p. split; [by right|]. split; [done|]. split; [done|].
      intros w'. cbn [fold_left]. apply Hany.
    + cbn [map] in Hout. apply elem_of_cons in Hout as [->|Hin]; [|done].
      exists q. split; [by left|]. split; [done|].
      assert (forall w', docs (fold_left emit' paths (emit' w' q)) !! out_path q
                         = Some (markdown q (items q))) as Hany.
      { intros w'. rewrite docs_emit_other by done.
        cbn [emit print docs]. by rewrite lookup_insert_eq. }
      split; [apply Hany|]. intros w'. cbn [fold_left]. apply Hany.
Qed.

Lemma docs_emit_nodup paths w p :
  NoDup (map out_path paths) -> p ∈ paths ->
  docs (fold_left emit' paths w) !! out_path p = Some (markdown p (items p)).
Proof.
  revert w. induction paths as [|q paths IH]; intros w Hnd Hp.
  - by apply elem_of_nil in Hp.
  - cbn [map] in Hnd. apply NoDup_cons in Hnd as [Hq Hnd].
    cbn [fold_left]. apply elem_of_cons in Hp as [->|Hp]; [|by apply IH].
    rewrite docs_emit_other by done.
    cbn [emit print docs]. by rewrite lookup_insert_eq.
Qed.

Lemma docs_emit_dom paths w :
  dom (docs (fold_left emit' paths w))
  = dom (docs w) ∪ list_to_set (map out_path paths).
Proof.
  revert w. induction paths as [|p paths IH]; intros w.
  - cbn [fold_left map list_to_set]. set_solver.
  - cbn [fold_left map list_to_set]. rewrite IH.
    cbn [emit print docs]. rewrite dom_insert_L. set_solver.
Qed.

(** Running the second loop again over its own output changes nothing. *)
Lemma docs_emit_idem paths w w' :
  docs w' = docs (fold_left emit' paths w) ->
  docs (fold_left emit' paths w') = docs w'.
Proof.
  intros Hw'. apply map_eq. intros out.
  destruct (decide (out ∈ map out_path paths)) as [Hin|Hnotin].
  - destruct (docs_emit_written paths w out Hin) as (p & _ & _ & Hdocs & Hany).
    by rewrite Hw', Hdocs, Hany.
  - by rewrite docs_emit_other.
Qed.

Lemma NoDup_out_path paths :
  NoDup (map Path.name paths) -> NoDup (map out_path paths).
Proof.
  induction paths as [|p paths IH]; [constructor|].
  cbn [map]. rewrite !NoDup_cons. intros [Hp Hnd]. split; [|by apply IH].
  intros Hin. apply Hp.
  apply list_elem_of_fmap in Hin as (q & Hq & Hin).
  apply list_elem_of_fmap. exists q. split; [|done]. by apply out_path_inj.
Qed.

End Output.

Section Totality.

Variable ast_parse : string -> option ast.Mod.
Variable cleandoc : string -> string.
Variable alloc : nat -> nat.
Variable read_text : string -> string.

Local Abbreviation blocks := (layout ast_parse cleandoc alloc read_text).
Local Abbreviation graph := (build_graph ast_parse cleandoc alloc read_text).

Lemma blocks_have_path n paths :
  Forall (fun b => is_Some (props b.1 !! "path")) (blocks n paths).
Proof.
  revert n. induction paths as [|p paths IH]; intros n; [constructor|].
  cbn [layout]. constructor; [|apply IH].
  cbn [fst file_node_at props]. unfold file_props. by rewrite lookup_insert_eq.
Qed.

(** Every file node has a linked doc node. *)
Lemma linked_docs_nonempty paths file_node :
  file_node ∈ find_nodes (graph paths) "file" ->
  linked_docs (graph paths) file_node <> [].
Proof.
  rewrite find_nodes_graph. intros (b & -> & Hb)%list_elem_of_fmap.
  pose proof (blocks_docs_nonempty ast_parse cleandoc alloc read_text 0 paths) as Hne.
  rewrite Forall_forall in Hne. specialize (Hne b Hb).
  destruct b.2 as [|d ds] eqn:Hds; [done|].
  unfold linked_docs. rewrite build_graph_shape. cbn [edges].
  set (e := {| edge_j_type := "for_file"; source := d; dest := b.1 |}).
  assert (In e (List.filter
                  (fun e => String.eqb (edge_j_type e) "for_file" && node_is (dest e) b.1)
                  (flat_map block_edges (blocks 0 paths)))) as Hin.
  { apply filter_In. split.
    - apply in_flat_map. exists b. split; [by apply list_elem_of_In|].
      unfold block_edges. rewrite Hds. by left.
    - cbn [e edge_j_type dest]. unfold node_is. by rewrite Nat.eqb_refl. }
  intros Hnil. apply map_eq_nil in Hnil. rewrite Hnil in Hin. done.
Qed.

End Totality.

Section Selection.

Lemma rfind_dot_py stem : Py.rfind "." (stem +:+ ".py") = Some (String.length stem).
Proof.
  induction stem as [|c stem IH]; [done|].
  rewrite sapp_cons. cbn [Py.rfind String.length]. by rewrite IH.
Qed.

Lemma drop_length_app (s t : string) : Py.drop (String.length s) (s +:+ t) = t.
Proof. induction s as [|c s IH]; [done|]. rewrite sapp_cons. exact IH. Qed.

Lemma endswith_refl s : Py.endswith s s = true.
Proof. destruct s; simpl; by rewrite ?String.eqb_refl, ?Ascii.eqb_refl. Qed.

Lemma endswith_drop i s : Py.endswith s (Py.drop i s) = true.
Proof.
  revert i. induction s as [|c s IH]; intros i.
  - by destruct i.
  - destruct i as [|i]; [apply endswith_refl|].
    cbn [Py.drop Py.endswith]. rewrite IH. apply orb_true_r.
Qed.

Lemma endswith_lower s t :
  Py.endswith s t = true -> Py.endswith (Py.lower s) (Py.lower t) = true.
Proof.
  induction s as [|c s IH].
  - cbn [Py.endswith]. rewrite orb_false_r. intros <-%String.eqb_eq. done.
  - cbn [Py.endswith]. intros [<-%String.eqb_eq | H]%orb_true_iff.
    + apply endswith_refl.
    + cbn [Py.lower Py.endswith]. rewrite (IH H). apply orb_true_r.
Qed.

(** The structured extractor is selected for a discovered file whose name
    is a non-empty stem followed by [.py] in lower case. *)
Lemma select_extractor_py root stem :
  stem <> "" -> slash_free (stem +:+ ".py") = true ->
  select_extractor (Path.joinpath root (stem +:+ ".py")) = StructuredDocExtractor.
Proof.
  intros Hstem Hslash. unfold select_extractor, Path.suffix.
  rewrite name_joinpath by done.
  rewrite rfind_dot_py, length_app_string, drop_length_app.
  destruct (0 <? String.length stem) eqn:Hpos.
  - destruct (String.length stem <? String.length stem + String.length ".py" - 1) eqn:Hlt;
      [done|].
    apply Nat.ltb_ge in Hlt. cbn [String.length] in Hlt. lia.
  - apply Nat.ltb_ge in Hpos. destruct stem; [done|]. cbn [String.length] in Hpos. lia.
Qed.

(** The structured extractor is selected only for a file whose name ends
    with [.py]: every other discovered file goes to the comment extractor. *)
Lemma select_extractor_structured path :
  select_extractor path = StructuredDocExtractor ->
  Py.endswith (Path.name path) ".py" = true
  /\ Py.endswith (Py.lower (Path.name path)) ".py" = true.
Proof.
  unfold select_extractor, Path.suffix.
  destruct (Py.rfind "." (Path.name path)) as [i|]; [|done].
  destruct ((0 <? i) && (i <? String.length (Path.name path) - 1)); [|done].
  destruct (String.eqb_spec (Py.drop i (Path.name path)) ".py") as [Hdrop|]; [|done].
  intros _.
  assert (Py.endswith (Path.name path) ".py" = true) as Hends.
  { rewrite <- Hdrop. apply endswith_drop. }
  split; [exact Hends|]. by apply endswith_lower in Hends.
Qed.

End Selection.

(** ** The properties of the specification *)

(** C1, at a file the walk discovers as a [.py] file: [MAIN.PY] passes the
    case-insensitive filter of the walk through its [.py] entry, and [main]
    hands it to the generic comment extractor, because the test on
    [path.suffix] is case-sensitive.  On the sample module the structured
    extractor finds three items, the pipeline none. *)
Theorem upper_case_py_selects_comment_extractor :
  allowed "MAIN.PY" = true
  /\ Py.endswith (Py.lower "MAIN.PY") ".py" = true
  /\ enumerate [("src", ["MAIN.PY"])] = ["src/MAIN.PY"]
  /\ select_extractor "src/MAIN.PY" = CommentExtractor
  /\ (forall ast_parse cleandoc content,
        extract ast_parse cleandoc "src/MAIN.PY" content
        = parse_generic_comments content)
  /\ length (parse_python sample_parse inspect.cleandoc sample_source) = 3
  /\ extract sample_parse inspect.cleandoc "src/MAIN.PY" sample_source = []
  /\ (docs <$> main sample_parse inspect.cleandoc (fun n => n) sample_read_text
                 reads_ok name_fits [("src", ["MAIN.PY"])] empty_world)
     = Some {[ "docs/MAIN.PY.md" :=
                 markdown "src/MAIN.PY"
                   [("Summary", "No docstrings or comment blocks found in MAIN.PY")] ]}
  /\ select_extractor "src/main.py" = StructuredDocExtractor.
Proof. repeat split; vm_compute; reflexivity. Qed.

(** C2 as stated fails: two discovered files with one base name, in two
    directories, are written to one output file, and the run that starts
    from an empty output directory leaves a single file, holding the
    markdown of the second. *)
Lemma same_basename_one_output_file :
  let walk := [("src/a", ["x.c"]); ("src/b", ["x.c"])] in
  enumerate walk = ["src/a/x.c"; "src/b/x.c"]
  /\ out_path "src/a/x.c" = out_path "src/b/x.c"
  /\ (docs <$> main sample_parse inspect.cleandoc (fun n => n) sample_read_text
                 reads_ok name_fits walk empty_world)
     = Some {[ "docs/x.c.md" :=
                 markdown "src/b/x.c"
                   [("Summary", "No docstrings or comment blocks found in x.c")] ]}.
Proof. repeat split; vm_compute; reflexivity. Qed.

(** C2, amended: of a run that returns, each discovered file has been
    written once, to [docs/<name>.md], [<name>] being the directory entry
    with its extension; every such output file exists, and no other file
    of the output directory is created or changed; two discovered files
    are written to one output file exactly when they have one base name;
    and an output file holds the markdown of the last discovered file with
    its base name, so that when the base names are all distinct the output
    files are distinct and each holds the markdown of its own source
    file. *)
Theorem one_output_file_per_basename
    ast_parse cleandoc alloc read_text readable writable
    (walk : list (string * list string)) (w w' : World) :
  (forall m n, alloc m = alloc n -> m = n) ->
  main ast_parse cleandoc alloc read_text readable writable walk w = Some w' ->
  stdout w'
  = stdout w
    ++ map (fun p => "Wrote docs/" +:+ Path.name p +:+ ".md") (enumerate walk)
    ++ [match enumerate walk with
        | [] => "No source files found in src."
        | _ => "Done. Check the docs folder."
        end]
  /\ (forall p, p ∈ enumerate walk ->
        is_Some (docs w' !! ("docs/" +:+ Path.name p +:+ ".md")))
  /\ (forall out,
        (forall p, p ∈ enumerate walk -> out <> "docs/" +:+ Path.name p +:+ ".md") ->
        docs w' !! out = docs w !! out)
  /\ (forall p q, out_path p = out_path q <-> Path.name p = Path.name q)
  /\ (forall root files fn,
        (root, files) ∈ walk -> fn ∈ files -> allowed fn = true ->
        slash_free fn = true ->
        Path.joinpath root fn ∈ enumerate walk
        /\ out_path (Path.joinpath root fn) = "docs/" +:+ fn +:+ ".md")
  /\ (forall before p after,
        enumerate walk = before ++ p :: after ->
        Forall (fun q => Path.name q <> Path.name p) after ->
        docs w' !! out_path p
        = Some (markdown p (items_of ast_parse cleandoc read_text p)))
  /\ (NoDup (map Path.name (enumerate walk)) ->
      NoDup (map out_path (enumerate walk))
      /\ forall p, p ∈ enumerate walk ->
           docs w' !! out_path p
           = Some (markdown p (items_of ast_parse cleandoc read_text p))).
Proof.
  intros Hinj Hmain.
  apply main_returned in Hmain as (_ & _ & ->); [|done].
  cbn [stdout docs print].
  split; [by rewrite stdout_emit, <- app_assoc|].
  split; [|split; [|split; [|split; [|split]]]].
  - intros p Hp.
    destruct (docs_emit_written ast_parse cleandoc read_text (enumerate walk) w (out_path p))
      as (q & _ & _ & Hdocs & _).
    { apply list_elem_of_fmap. by exists p. }
    rewrite out_path_name in Hdocs. rewrite Hdocs. by eexists.
  - intros out Hout. apply docs_emit_other.
    intros (p & -> & Hp)%list_elem_of_fmap. by apply (Hout p Hp).
  - intros p q. split; [apply out_path_inj|]. rewrite !out_path_name. by intros ->.
  - intros root files fn Hin Hfn Hal Hsl. split.
    + apply elem_of_enumerate. by exists root, files, fn.
    + rewrite out_path_name. by rewrite name_joinpath.
  - intros before p after -> Hafter. rewrite fold_left_app. cbn [fold_left].
    rewrite docs_emit_other.
    + cbn [emit print docs]. apply lookup_insert_eq.
    + intros (q & Hq & Hin)%list_elem_of_fmap.
      rewrite Forall_forall in Hafter. apply (Hafter q Hin).
      symmetry. by apply out_path_inj.
  - intros Hnd. split; [by apply NoDup_out_path|].
    intros p Hp. apply docs_emit_nodup; [by apply NoDup_out_path | done].
Qed.

Lemma one_output_file_per_basename_witness :
  exists w',
    main sample_parse inspect.cleandoc (fun n => n) sample_read_text reads_ok name_fits
      [("src/a", ["x.c"]); ("src/b", ["empty.h"]); ("src/c", ["x.c"])] empty_world
    = Some w'
    /\ docs w' !! "docs/empty.h.md"
       = Some (markdown "src/b/empty.h"
                 (items_of sample_parse inspect.cleandoc sample_read_text "src/b/empty.h"))
    /\ docs w' !! "docs/x.c.md"
       = Some (markdown "src/c/x.c"
                 (items_of sample_parse inspect.cleandoc sample_read_text "src/c/x.c")).
Proof.
  destruct (main sample_parse inspect.cleandoc (fun n => n) sample_read_text reads_ok
              name_fits [("src/a", ["x.c"]); ("src/b", ["empty.h"]); ("src/c", ["x.c"])]
              empty_world) as [w'|] eqn:Hmain; [|vm_compute in Hmain; discriminate].
  exists w'. split; [reflexivity|].
  destruct (one_output_file_per_basename sample_parse inspect.cleandoc (fun n => n)
              sample_read_text reads_ok name_fits
              [("src/a", ["x.c"]); ("src/b", ["empty.h"]); ("src/c", ["x.c"])]
              empty_world w') as (_ & _ & _ & _ & _ & Hlast & _).
  - intros m n H. exact H.
  - exact Hmain.
  - split.
    + apply (Hlast ["src/a/x.c"] "src/b/empty.h" ["src/c/x.c"]); [reflexivity|].
      repeat constructor. vm_compute. discriminate.
    + apply (Hlast ["src/a/x.c"; "src/b/empty.h"] "src/c/x.c" []); [reflexivity|].
      constructor.
Defined.

(** C3: the result of [parse_generic_comments] is the items of the block
    comments (each trimmed, the empty ones dropped, in order of
    appearance) followed by the items of the runs of consecutive comment
    lines (in file order): the two groups are not merged by position, as
    the text with a line comment before a block comment shows.  In
    particular [/* A */] followed by three [//] lines gives two items, the
    block comment first. *)
Theorem parse_generic_comments_blocks_then_runs :
  (forall content,
     parse_generic_comments content
     = block_items content ++ run_items (Py.splitlines content))
  /\ parse_generic_comments ("// first" +:+ nl +:+ "/* second */")
     = [("comment_block", "second"); ("comment_block", "first")]
  /\ (forall l1 l2 l3,
        one_line l1 = true -> one_line l2 = true -> one_line l3 = true ->
        star_free l1 = true -> star_free l2 = true -> star_free l3 = true ->
        parse_generic_comments
          (Py.join nl ["/* A */"; "//" +:+ l1; "//" +:+ l2; "//" +:+ l3])
        = [("comment_block", "A");
           ("comment_block",
            Py.strip (Py.join nl [Py.strip l1; Py.strip l2; Py.strip l3]))]).
Proof.
  split; [exact parse_generic_comments_passes|].
  split; [by vm_compute|]. exact parse_generic_comments_block_then_lines.
Qed.

Lemma parse_generic_comments_blocks_then_runs_witness :
  parse_generic_comments
    (Py.join nl ["/* A */"; "// one"; "// two"; "// three"])
  = [("comment_block", "A");
     ("comment_block", Py.join nl ["one"; "two"; "three"])].
Proof.
  destruct parse_generic_comments_blocks_then_runs as (_ & _ & H).
  apply (H " one" " two" " three"); reflexivity.
Defined.

(** C4: when [ast.parse] raises on a text, [parse_python] returns what
    [parse_generic_comments] returns on it.  So a discovered file with
    that text is not left without documentation, and the failure of the
    parse stops nothing: its items, those of the comment extractor or the
    placeholder, are the [doc] nodes linked to its [file] node, title and
    body; they are what its markdown lists; and when the operating system
    refuses no read and no write, the run returns, with that markdown in
    the output file of the path (unless a later discovered file with the
    same base name overwrote it). *)
Theorem parse_python_falls_back
    (ast_parse : string -> option ast.Mod) (cleandoc : string -> string)
    (content : string) :
  ast_parse content = None ->
  parse_python ast_parse cleandoc content = parse_generic_comments content
  /\ forall alloc read_text walk k path,
       (forall m n, alloc m = alloc n -> m = n) ->
       enumerate walk !! k = Some path ->
       read_text path = content ->
       let g := build_graph ast_parse cleandoc alloc read_text (enumerate walk) in
       let found := or_placeholder path (parse_generic_comments content) in
       found <> []
       /\ (exists file_node,
             find_nodes g "file" !! k = Some file_node
             /\ map (fun d => (props d !! "title", props d !! "body"))
                   (linked_docs g file_node)
                = map (fun it =>
                         (Some it.1,
                          Some (if Py.truthy it.2 then it.2 else "(no description)")))
                    found
             /\ render g file_node path = markdown path found)
       /\ forall readable writable w,
            (forall p, p ∈ enumerate walk -> readable p = true) ->
            (forall p, p ∈ enumerate walk ->
               writable (out_path p)
                 (markdown p (items_of ast_parse cleandoc read_text p)) = true) ->
            exists w',
              main ast_parse cleandoc alloc read_text readable writable walk w = Some w'
              /\ (Forall (fun q => Path.name q <> Path.name path)
                     (drop (S k) (enumerate walk)) ->
                  docs w' !! out_path path = Some (markdown path found)).
Proof.
  intros Hraise.
  assert (parse_python ast_parse cleandoc content = parse_generic_comments content)
    as Hfallback.
  { unfold parse_python. by rewrite Hraise. }
  split; [exact Hfallback|].
  intros alloc read_text walk k path Hinj Hk Hread g found.
  assert (items_of ast_parse cleandoc read_text path = found) as Hitems.
  { unfold items_of, extract, found. rewrite Hread.
    destruct (select_extractor path); by rewrite ?Hfallback. }
  split; [rewrite <- Hitems; apply items_nonempty|].
  destruct (lookup_lt_is_Some_2 (layout ast_parse cleandoc alloc read_text 0 (enumerate walk)) k)
    as [b Hb].
  { rewrite blocks_length. by eapply lookup_lt_Some. }
  destruct (blocks_lookup_path _ _ _ _ _ _ _ _ _ Hb Hk) as [m Hm].
  destruct (render_block _ _ _ _ Hinj _ _ _ _ Hb Hk) as [Hpath Hrender].
  split.
  - exists b.1. split; [|split].
    + unfold g. by rewrite find_nodes_graph, list_lookup_fmap, Hb.
    + unfold g. rewrite (linked_docs_graph _ _ _ _ Hinj _ _ _ Hb), Hm.
      cbn [snd]. rewrite Hitems. generalize (S m). clear.
      induction found as [|it its IH]; intros n; [done|].
      cbn [doc_nodes map doc_node_at props]. by rewrite IH.
    + unfold g. by rewrite Hrender, Hitems.
  - intros readable writable w Hreads Hwrites.
    assert (forallb readable (enumerate walk) = true) as Hr.
    { apply forallb_forall. intros p Hp. by apply Hreads, list_elem_of_In. }
    assert (forallb (accepted ast_parse cleandoc read_text writable) (enumerate walk) = true)
      as Hw.
    { apply forallb_forall. intros p Hp. by apply Hwrites, list_elem_of_In. }
    eexists. split.
    + rewrite (main_spec _ _ _ _ Hinj), Hr, Hw. reflexivity.
    + intros Hafter. cbn [docs print].
      rewrite <- (take_drop_middle _ _ _ Hk) at 1.
      rewrite fold_left_app. cbn [fold_left]. rewrite docs_emit_other.
      * cbn [emit print docs]. by rewrite Hitems, lookup_insert_eq.
      * intros (q & Hq & Hin)%list_elem_of_fmap.
        rewrite Forall_forall in Hafter. apply (Hafter q Hin).
        symmetry. by apply out_path_inj.
Qed.

Lemma parse_python_falls_back_witness :
  parse_python sample_parse inspect.cleandoc ("def broken(:" +:+ nl +:+ "# to do")
  = [("comment_block", "to do")]
  /\ exists w',
       main sample_parse inspect.cleandoc (fun n => n) sample_read_text reads_ok name_fits
         sample_walk empty_world = Some w'
       /\ docs w' !! "docs/broken.py.md"
          = Some (markdown "src/broken.py" [("comment_block", "to do")]).
Proof.
  destruct (parse_python_falls_back sample_parse inspect.cleandoc
              ("def broken(:" +:+ nl +:+ "# to do")) as [Hfallback Hrun]; [reflexivity|].
  split; [rewrite Hfallback; reflexivity|].
  destruct (Hrun (fun n => n) sample_read_text sample_walk 2 "src/broken.py")
    as (_ & _ & Hmain).
  - intros m n H. exact H.
  - reflexivity.
  - reflexivity.
  - destruct (Hmain reads_ok name_fits empty_world) as (w' & Hw' & Hdocs).
    + reflexivity.
    + intros p Hp. vm_compute in Hp.
      repeat (apply elem_of_cons in Hp as [->|Hp]; [reflexivity|]).
      by apply elem_of_nil in Hp.
    + exists w'. split; [exact Hw'|]. apply Hdocs.
      repeat constructor; vm_compute; discriminate.
Defined.

(** C5: a class among the top-level statements of a parsed module gives
    one item, at its place among the items of the definitions, titled
    [class <name>]; its body is the trimmed docstring of the class
    followed, when the class defines methods, by the [Methods:] section
    with a line [- <name>(): <doc or '(no doc)'>] per method in declaration
    order, the whole trimmed, and [(no doc)] when that is empty.  With
    methods the body reads: docstring and blank line (if there is a
    docstring), [Methods:], the method lines.  A class whose methods are m1,
    documented [returns 1], and m2, undocumented, has a body that ends with
    the line of m1 followed by the line of m2. *)
Theorem class_item_emitted
    (ast_parse : string -> option ast.Mod) (cleandoc : string -> string)
    (content : string) (module : ast.Mod)
    (before after : list ast.stmt) (name : string) (class_body : list ast.stmt) :
  ast_parse content = Some module ->
  ast.body module = before ++ ast.ClassDef name class_body :: after ->
  parse_python ast_parse cleandoc content
  = module_doc_item cleandoc module
    ++ omap (statement_item cleandoc) before
    ++ ("class " +:+ name, class_body_text cleandoc class_body)
       :: omap (statement_item cleandoc) after
  /\ (direct_methods cleandoc class_body = [] ->
      class_body_text cleandoc class_body
      = if Py.truthy (trimmed_doc cleandoc class_body)
        then trimmed_doc cleandoc class_body else "(no doc)")
  /\ (direct_methods cleandoc class_body <> [] ->
      class_body_text cleandoc class_body
      = methods_text (trimmed_doc cleandoc class_body)
          (direct_methods cleandoc class_body))
  /\ (direct_methods cleandoc class_body = [("m1", "returns 1"); ("m2", "")] ->
      exists heading,
        class_body_text cleandoc class_body
        = heading +:+ "- m1(): returns 1" +:+ nl +:+ "- m2(): (no doc)").
Proof.
  intros Hparse Hbody. split; [|split; [|split]].
  - unfold parse_python. rewrite Hparse, module_items_spec, Hbody.
    rewrite omap_app. cbn [omap list_omap statement_item]. done.
  - apply class_body_text_no_methods.
  - apply class_body_text_methods.
  - intros Hms. rewrite class_body_text_methods by (by rewrite Hms).
    rewrite Hms. unfold methods_text. cbn [map Py.join].
    eexists. rewrite <- !sapp_assoc. reflexivity.
Qed.

Lemma class_item_emitted_witness :
  parse_python sample_parse inspect.cleandoc sample_source
  = [("module", "Shapes.");
     ("class C", "Methods:" +:+ nl +:+ "- m1(): returns 1" +:+ nl +:+ "- m2(): (no doc)");
     ("def f()", "")].
Proof.
  destruct (class_item_emitted sample_parse inspect.cleandoc sample_source
              sample_module [ast.Expr (ast.Constant_str "Shapes.")]
              [ast.FunctionDef "f"
                 [ast.FunctionDef "inner" [ast.Expr (ast.Constant_str "hidden")]];
               ast.OtherStmt]
              "C"
              [ast.FunctionDef "m1" [ast.Expr (ast.Constant_str "returns 1"); ast.OtherStmt];
               ast.FunctionDef "m2" [ast.OtherStmt]]) as [H _].
  - reflexivity.
  - reflexivity.
  - rewrite H. vm_compute. reflexivity.
Defined.

(** C6 as stated fails: a module whose first statement is the empty string
    literal has a docstring, the empty string, and [parse_python] gives it
    no [module] item. *)
Lemma empty_module_docstring_no_item :
  sample_parse "''" = Some empty_doc_module
  /\ ast.get_docstring inspect.cleandoc (ast.body empty_doc_module) = Some ""
  /\ parse_python sample_parse inspect.cleandoc "''" = [].
Proof. repeat split. Qed.

(** C6, amended: on a text that parses, [parse_python] returns the
    [module] item first if the module docstring exists and is not empty,
    then one item for each top-level function, async function and class, in
    declaration order; a statement of another kind gives no item, and what
    a function body holds after its first statement changes nothing. *)
Theorem parse_python_order
    (ast_parse : string -> option ast.Mod) (cleandoc : string -> string)
    (content : string) (module : ast.Mod) :
  ast_parse content = Some module ->
  parse_python ast_parse cleandoc content
  = match ast.get_docstring cleandoc (ast.body module) with
    | Some d => if Py.truthy d then [("module", Py.strip d)] else []
    | None => []
    end
    ++ omap (statement_item cleandoc) (ast.body module)
  /\ (forall node,
        is_Some (statement_item cleandoc node)
        <-> exists name node_body,
              node = ast.FunctionDef name node_body
              \/ node = ast.AsyncFunctionDef name node_body
              \/ node = ast.ClassDef name node_body)
  /\ (forall name first rest rest',
        statement_item cleandoc (ast.FunctionDef name (first :: rest))
        = statement_item cleandoc (ast.FunctionDef name (first :: rest'))
        /\ statement_item cleandoc (ast.AsyncFunctionDef name (first :: rest))
           = statement_item cleandoc (ast.AsyncFunctionDef name (first :: rest'))).
Proof.
  intros Hparse. split; [|split].
  - unfold parse_python. rewrite Hparse. apply module_items_spec.
  - intros node. split.
    + intros [it Hit]. destruct node; try done; eauto.
    + intros (name & node_body & [-> | [-> | ->]]); by eexists.
  - intros name first rest rest'. unfold statement_item, trimmed_doc.
    by destruct first as [| | |[]|].
Qed.

Lemma parse_python_order_witness :
  parse_python sample_parse inspect.cleandoc sample_source
  = [("module", "Shapes.");
     ("class C", "Methods:" +:+ nl +:+ "- m1(): returns 1" +:+ nl +:+ "- m2(): (no doc)");
     ("def f()", "")].
Proof.
  destruct (parse_python_order sample_parse inspect.cleandoc sample_source sample_module)
    as [H _]; [reflexivity|].
  rewrite H. vm_compute. reflexivity.
Defined.

(** C7: for a discovered file whose extraction gives no item, the items of
    the file are the single placeholder, titled [Summary], with the body
    [No docstrings or comment blocks found in <filename>]; the file node
    has exactly one linked doc node, which carries that title and body; and
    the markdown rendered for the file is the heading, the path line and
    that body under [## Summary]. *)
Theorem empty_extraction_renders_summary
    (ast_parse : string -> option ast.Mod) (cleandoc : string -> string)
    (alloc : nat -> nat) (read_text : string -> string)
    (walk : list (string * list string)) (k : nat) (path : string) :
  (forall m n, alloc m = alloc n -> m = n) ->
  enumerate walk !! k = Some path ->
  extract ast_parse cleandoc path (read_text path) = [] ->
  let g := build_graph ast_parse cleandoc alloc read_text (enumerate walk) in
  let body := "No docstrings or comment blocks found in " +:+ Path.name path in
  items_of ast_parse cleandoc read_text path = [("Summary", body)]
  /\ exists file_node doc_node,
       find_nodes g "file" !! k = Some file_node
       /\ props file_node !! "path" = Some path
       /\ linked_docs g file_node = [doc_node]
       /\ props doc_node !! "title" = Some "Summary"
       /\ props doc_node !! "body" = Some body
       /\ render g file_node path
          = "# " +:+ Path.name path +:+ nl +:+ nl
            +:+ "_path_: `" +:+ path +:+ "`" +:+ nl +:+ nl
            +:+ "## Summary" +:+ nl +:+ nl
            +:+ body +:+ nl.
Proof.
  intros Hinj Hk Hempty g body.
  assert (items_of ast_parse cleandoc read_text path = [("Summary", body)]) as Hitems.
  { unfold items_of. by rewrite Hempty. }
  split; [exact Hitems|].
  destruct (lookup_lt_is_Some_2 (layout ast_parse cleandoc alloc read_text 0 (enumerate walk)) k)
    as [b Hb].
  { rewrite blocks_length. by eapply lookup_lt_Some. }
  destruct (blocks_lookup_path _ _ _ _ _ _ _ _ _ Hb Hk) as [m Hm].
  destruct (render_block _ _ _ _ Hinj _ _ _ _ Hb Hk) as [Hpath Hrender].
  exists b.1, (doc_node_at alloc (S m) path ("Summary", body)).
  split; [|split; [exact Hpath|split; [|split; [|split]]]].
  - unfold g. by rewrite find_nodes_graph, list_lookup_fmap, Hb.
  - unfold g. rewrite (linked_docs_graph _ _ _ _ Hinj _ _ _ Hb), Hm.
    cbn [snd]. by rewrite Hitems.
  - cbn [doc_node_at props]. unfold doc_props. by rewrite lookup_insert_eq.
  - cbn [doc_node_at props]. unfold doc_props.
    rewrite lookup_insert_ne by done. by rewrite lookup_insert_eq.
  - unfold g. rewrite Hrender, Hitems. unfold markdown.
    cbn [flat_map item_lines app Py.join fst snd].
    change (Py.or_else body "(no description)") with body.
    by rewrite !sapp_assoc.
Qed.

Lemma empty_extraction_renders_summary_witness :
  let g := build_graph sample_parse inspect.cleandoc (fun n => n) sample_read_text
             (enumerate sample_walk) in
  exists file_node,
    find_nodes g "file" !! 5 = Some file_node
    /\ render g file_node "src/b/empty.h"
       = "# empty.h" +:+ nl +:+ nl +:+ "_path_: `src/b/empty.h`" +:+ nl +:+ nl
         +:+ "## Summary" +:+ nl +:+ nl
         +:+ "No docstrings or comment blocks found in empty.h" +:+ nl.
Proof.
  destruct (empty_extraction_renders_summary sample_parse inspect.cleandoc (fun n => n)
              sample_read_text sample_walk 5 "src/b/empty.h")
    as (_ & file_node & doc_node & Hfile & _ & _ & _ & _ & Hrender).
  - intros m n H. exact H.
  - reflexivity.
  - reflexivity.
  - exists file_node. split; [exact Hfile | exact Hrender].
Defined.

(** C8: in every graph the first loop of [main] passes through, on any
    list of discovered files, every edge has type [for_file], its source
    is a [doc] node of the graph's node list and its destination a [file]
    node of the graph's node list.  The graph the rendering loop reads is
    one of these graphs. *)
Theorem reachable_edges_well_formed
    (ast_parse : string -> option ast.Mod) (cleandoc : string -> string)
    (alloc : nat -> nat) (read_text : string -> string)
    (walk : list (string * list string)) (g : GraphSimple) :
  reachable ast_parse cleandoc alloc read_text (enumerate walk) g ->
  (forall e, e ∈ edges g ->
     edge_j_type e = "for_file"
     /\ j_type (source e) = "doc" /\ source e ∈ nodes g
     /\ j_type (dest e) = "file" /\ dest e ∈ nodes g)
  /\ reachable ast_parse cleandoc alloc read_text (enumerate walk)
       (build_graph ast_parse cleandoc alloc read_text (enumerate walk)).
Proof.
  intros (c & Hrun & <-). split; [|apply build_graph_reachable].
  destruct (config_ok_reachable _ _ _ _ _ _ Hrun) as [Hedges _].
  rewrite Forall_forall in Hedges. exact Hedges.
Qed.

Lemma reachable_edges_well_formed_witness :
  let g := build_graph sample_parse inspect.cleandoc (fun n => n) sample_read_text
             (enumerate sample_walk) in
  length (edges g) = 9
  /\ forall e, e ∈ edges g ->
       edge_j_type e = "for_file"
       /\ j_type (source e) = "doc" /\ source e ∈ nodes g
       /\ j_type (dest e) = "file" /\ dest e ∈ nodes g.
Proof.
  split; [reflexivity|].
  apply (reachable_edges_well_formed sample_parse inspect.cleandoc (fun n => n)
           sample_read_text sample_walk).
  apply build_graph_reachable.
Defined.

(** C9: the markdown output does not depend on the identities of the nodes
    nor on what the output directory held: of two runs that return, on the
    same discovered files, file contents and parser, with any two
    allocations of identities and any two prior states, every output file
    of a discovered file exists after both and holds the same text; a file
    that is no output of the run is left as it was; and a run that returns
    after starting from the output of the first leaves the output
    directory as the first run left it. *)
Theorem markdown_output_deterministic
    (ast_parse : string -> option ast.Mod) (cleandoc : string -> string)
    (read_text : string -> string) (alloc1 alloc2 : nat -> nat)
    (readable1 readable2 : string -> bool) (writable1 writable2 : string -> string -> bool)
    (walk : list (string * list string)) (w1 w2 r1 r2 : World) :
  (forall m n, alloc1 m = alloc1 n -> m = n) ->
  (forall m n, alloc2 m = alloc2 n -> m = n) ->
  main ast_parse cleandoc alloc1 read_text readable1 writable1 walk w1 = Some r1 ->
  main ast_parse cleandoc alloc2 read_text readable2 writable2 walk w2 = Some r2 ->
  (forall p, p ∈ enumerate walk ->
     is_Some (docs r1 !! out_path p)
     /\ docs r1 !! out_path p = docs r2 !! out_path p)
  /\ (forall out, out ∉ map out_path (enumerate walk) ->
        docs r1 !! out = docs w1 !! out)
  /\ (docs w1 = docs w2 -> docs r1 = docs r2)
  /\ (forall r3,
        main ast_parse cleandoc alloc2 read_text readable2 writable2 walk r1 = Some r3 ->
        docs r3 = docs r1).
Proof.
  intros Hinj1 Hinj2 Hrun1 Hrun2.
  apply main_returned in Hrun1 as (_ & _ & ->); [|done].
  apply main_returned in Hrun2 as (_ & _ & ->); [|done].
  cbn [docs print]. set (paths := enumerate walk).
  split; [|split; [|split]].
  - intros p Hp.
    destruct (docs_emit_written ast_parse cleandoc read_text paths w1 (out_path p))
      as (q & _ & _ & Hdocs & Hany).
    { apply list_elem_of_fmap. by exists p. }
    rewrite Hdocs, Hany. split; [by eexists | done].
  - intros out Hout. by apply docs_emit_other.
  - intros Hsame. apply map_eq. intros out.
    destruct (decide (out ∈ map out_path paths)) as [Hin|Hnotin].
    + destruct (docs_emit_written ast_parse cleandoc read_text paths w1 out Hin)
        as (q & _ & _ & Hdocs & Hany).
      by rewrite Hdocs, Hany.
    + by rewrite !docs_emit_other, Hsame.
  - intros r3 Hrun3.
    apply main_returned in Hrun3 as (_ & _ & ->); [|done].
    cbn [docs print]. fold paths.
    rewrite (docs_emit_idem ast_parse cleandoc read_text paths w1 (print _ _));
      reflexivity.
Qed.

Lemma markdown_output_deterministic_witness :
  exists r1 r2,
    main sample_parse inspect.cleandoc (fun n => n) sample_read_text reads_ok name_fits
      sample_walk empty_world = Some r1
    /\ main sample_parse inspect.cleandoc (fun n => 2 * n + 7) sample_read_text
         reads_ok (fun _ _ => true) sample_walk
         {| docs := {[ "docs/x.c.md" := "stale" ]}; stdout := [] |} = Some r2
    /\ docs r1 !! "docs/x.c.md" = docs r2 !! "docs/x.c.md".
Proof.
  destruct (main sample_parse inspect.cleandoc (fun n => n) sample_read_text reads_ok
              name_fits sample_walk empty_world) as [r1|] eqn:Hrun1;
    [|vm_compute in Hrun1; discriminate].
  destruct (main sample_parse inspect.cleandoc (fun n => 2 * n + 7) sample_read_text
              reads_ok (fun _ _ => true) sample_walk
              {| docs := {[ "docs/x.c.md" := "stale" ]}; stdout := [] |})
    as [r2|] eqn:Hrun2; [|vm_compute in Hrun2; discriminate].
  exists r1, r2. split; [reflexivity|]. split; [reflexivity|].
  destruct (markdown_output_deterministic sample_parse inspect.cleandoc sample_read_text
              (fun n => n) (fun n => 2 * n + 7) reads_ok reads_ok name_fits
              (fun _ _ => true) sample_walk empty_world
              {| docs := {[ "docs/x.c.md" := "stale" ]}; stdout := [] |} r1 r2)
    as (Hsame & _).
  - intros m n H. exact H.
  - intros m n H. lia.
  - exact Hrun1.
  - exact Hrun2.
  - apply (Hsame "src/a/x.c"). vm_compute.
    do 3 (apply elem_of_cons; right). apply elem_of_cons. by left.
Defined.

(** C10: when the rendering loop runs, every file node of the graph has at
    least one linked doc node, so [render] never takes the branch that
    writes [No extracted docs found.]: the markdown is the heading, the
    path line and the lines of the linked doc nodes. *)
Theorem no_extracted_docs_branch_unreachable
    (ast_parse : string -> option ast.Mod) (cleandoc : string -> string)
    (alloc : nat -> nat) (read_text : string -> string)
    (walk : list (string * list string)) (file_node : Node) :
  let g := build_graph ast_parse cleandoc alloc read_text (enumerate walk) in
  file_node ∈ find_nodes g "file" ->
  linked_docs g file_node <> []
  /\ forall path,
       render g file_node path
       = Py.join nl
           (fold_left doc_step (linked_docs g file_node)
              ["# " +:+ Path.name path +:+ nl; "_path_: `" +:+ path +:+ "`" +:+ nl]).
Proof.
  intros g Hfile. subst g.
  pose proof (linked_docs_nonempty _ _ _ _ _ _ Hfile) as Hne.
  split; [exact Hne|]. intros path. unfold render.
  destruct (linked_docs _ file_node) as [|d ds]; [done | reflexivity].
Qed.

Lemma no_extracted_docs_branch_unreachable_witness :
  let g := build_graph sample_parse inspect.cleandoc (fun n => n) sample_read_text
             (enumerate sample_walk) in
  length (find_nodes g "file") = 6
  /\ linked_docs g (file_node_at (fun n => n) sample_read_text 13 "src/b/empty.h") <> [].
Proof.
  split; [reflexivity|].
  apply (no_extracted_docs_branch_unreachable sample_parse inspect.cleandoc (fun n => n)
           sample_read_text sample_walk).
  vm_compute. do 5 (apply elem_of_cons; right). apply elem_of_cons. by left.
Defined.

(** ** Further properties of the code *)

Section Filter.

Lemma lower_char_idem c : Py.lower_char (Py.lower_char c) = Py.lower_char c.
Proof. destruct c as [[] [] [] [] [] [] [] []]; reflexivity. Qed.

Lemma lower_idem s : Py.lower (Py.lower s) = Py.lower s.
Proof.
  induction s as [|c s IH]; [done|]. cbn [Py.lower]. by rewrite lower_char_idem, IH.
Qed.

Lemma endswith_app s p : Py.endswith s p = true <-> exists pre, s = pre +:+ p.
Proof.
  split.
  - induction s as [|c s IH]; cbn [Py.endswith].
    + rewrite orb_false_r. intros <-%String.eqb_eq. by exists "".
    + intros [<-%String.eqb_eq | H]%orb_true_iff; [by exists ""|].
      destruct (IH H) as [pre ->]. by exists (String c pre).
  - intros [pre ->]. induction pre as [|c pre IH]; [apply endswith_refl|].
    rewrite sapp_cons. cbn [Py.endswith]. rewrite IH. apply orb_true_r.
Qed.

Lemma allowed_exists fn :
  allowed fn = true
  <-> exists stem ext, ext ∈ extensions /\ Py.lower fn = stem +:+ ext.
Proof.
  unfold allowed. rewrite existsb_exists. split.
  - intros (ext & Hext & [stem Hstem]%endswith_app).
    exists stem, ext. by rewrite list_elem_of_In.
  - intros (stem & ext & Hext & Hstem). exists ext.
    rewrite <- list_elem_of_In. split; [done|]. apply endswith_app. by exists stem.
Qed.

End Filter.

(** X1: the filter of the walk accepts a name exactly when the name, in
    lower case, is some text followed by one of the seven extensions; so a
    name and its lower-case form are accepted alike. *)
Theorem allowed_case_insensitive :
  (forall fn,
     allowed fn = true
     <-> exists stem ext,
           ext ∈ [".py"; ".js"; ".java"; ".ts"; ".cpp"; ".c"; ".h"]
           /\ Py.lower fn = stem +:+ ext)
  /\ (forall fn, allowed (Py.lower fn) = allowed fn).
Proof.
  split; [exact allowed_exists|].
  intros fn. unfold allowed. by rewrite lower_idem.
Qed.

(** X2: a path is discovered exactly when it is [root/fn] for a directory
    [root] of the walk and an accepted name [fn] among its files; the
    discovered paths keep the order of the walk, directory after directory
    and file after file. *)
Theorem enumerate_discovers :
  (forall walk path,
     path ∈ enumerate walk
     <-> exists root files fn,
           (root, files) ∈ walk /\ fn ∈ files /\ allowed fn = true
           /\ path = root +:+ "/" +:+ fn)
  /\ (forall walk1 walk2, enumerate (walk1 ++ walk2) = enumerate walk1 ++ enumerate walk2)
  /\ (forall root files1 files2,
        enumerate [(root, files1 ++ files2)]
        = enumerate [(root, files1)] ++ enumerate [(root, files2)])
  /\ (forall root fn,
        enumerate [(root, [fn])] = if allowed fn then [root +:+ "/" +:+ fn] else []).
Proof.
  split; [exact elem_of_enumerate|]. split; [|split].
  - intros walk1 walk2. by rewrite !enumerate_spec, flat_map_app.
  - intros root files1 files2. rewrite !enumerate_spec. cbn [flat_map fst snd].
    by rewrite !app_nil_r, List.filter_app, map_app.
  - intros root fn. rewrite enumerate_spec. cbn [flat_map fst snd List.filter].
    by destruct (allowed fn).
Qed.

(** X3: when no file of the walk has an accepted name, [main] prints that
    no source file was found and returns: nothing is written to the output
    directory, and no read or write is tried that could raise. *)
Theorem main_no_source_files
    (ast_parse : string -> option ast.Mod) (cleandoc : string -> string)
    (alloc : nat -> nat) (read_text : string -> string)
    (readable : string -> bool) (writable : string -> string -> bool)
    (walk : list (string * list string)) (w : World) :
  (forall root files fn, (root, files) ∈ walk -> fn ∈ files -> allowed fn = false) ->
  main ast_parse cleandoc alloc read_text readable writable walk w
  = Some {| docs := docs w;
            stdout := stdout w ++ ["No source files found in src."] |}.
Proof.
  intros Hnone. unfold main.
  destruct (enumerate walk) as [|p ps] eqn:Hps; [done|].
  assert (p ∈ enumerate walk) as Hp by (rewrite Hps; by left).
  apply elem_of_enumerate in Hp as (root & files & fn & Hin & Hfn & Hal & _).
  by rewrite (Hnone _ _ _ Hin Hfn) in Hal.
Qed.

Lemma main_no_source_files_witness :
  main sample_parse inspect.cleandoc (fun n => n) sample_read_text
    (fun _ => false) (fun _ _ => false)
    [("src", ["notes.txt"; "Makefile"]); ("src/img", ["logo.png"])] empty_world
  = Some {| docs := ∅; stdout := ["No source files found in src."] |}.
Proof.
  apply (main_no_source_files sample_parse inspect.cleandoc (fun n => n) sample_read_text
           (fun _ => false) (fun _ _ => false)
           [("src", ["notes.txt"; "Makefile"]); ("src/img", ["logo.png"])] empty_world).
  intros root files fn Hin Hfn.
  repeat (apply elem_of_cons in Hin as [Hin|Hin]; [injection Hin as -> ->|]);
    [| |by apply elem_of_nil in Hin];
    repeat (apply elem_of_cons in Hfn as [->|Hfn]; [reflexivity|]);
    by apply elem_of_nil in Hfn.
Defined.

Section Scanner.

Lemma cblock_go_outside c r :
  cblock_go None (String c r)
  = match r with
    | String c' r' =>
        if Ascii.eqb c "/" && Ascii.eqb c' "*" then cblock_go (Some "") r'
        else cblock_go None r
    | "" => []
    end.
Proof.
  destruct r as [|c' r'].
  - by destruct c as [[] [] [] [] [] [] [] []].
  - destruct (Ascii.eqb_spec c "/") as [->|Hc].
    + destruct (Ascii.eqb_spec c' "*") as [->|Hc']; [done|].
      destruct c' as [[] [] [] [] [] [] [] []]; done.
    + destruct c as [[] [] [] [] [] [] [] []]; done.
Qed.

Lemma cblock_go_inside acc c r :
  cblock_go (Some acc) (String c r)
  = match r with
    | String c' r' =>
        if Ascii.eqb c "*" && Ascii.eqb c' "/"
        then String.rev acc :: cblock_go None r'
        else cblock_go (Some (String c acc)) r
    | "" => []
    end.
Proof.
  destruct r as [|c' r'].
  - by destruct c as [[] [] [] [] [] [] [] []].
  - destruct (Ascii.eqb_spec c "*") as [->|Hc].
    + destruct (Ascii.eqb_spec c' "/") as [->|Hc']; [done|].
      destruct c' as [[] [] [] [] [] [] [] []]; done.
    + destruct c as [[] [] [] [] [] [] [] []]; done.
Qed.

Lemma close_free_tail c r : close_free (String c r) = true -> close_free r = true.
Proof. destruct r as [|c' r']; [done|]. cbn [close_free]. by intros [_ ?]%andb_true_iff. Qed.

(** Inside a comment that never closes nothing is matched. *)
Lemma cblock_go_inside_close_free s acc :
  close_free s = true -> cblock_go (Some acc) s = [].
Proof.
  revert acc. induction s as [|c r IH]; intros acc Hs; [done|].
  rewrite cblock_go_inside. destruct r as [|c' r']; [done|].
  pose proof (close_free_tail _ _ Hs) as Hr.
  cbn [close_free] in Hs. apply andb_true_iff in Hs as [Hcc _].
  apply negb_true_iff in Hcc. rewrite Hcc. by apply IH.
Qed.

Lemma cblock_go_close_free s : close_free s = true -> cblock_go None s = [].
Proof.
  induction s as [|c r IH]; intros Hs; [done|].
  rewrite cblock_go_outside. destruct r as [|c' r']; [done|].
  pose proof (close_free_tail _ _ Hs) as Hr.
  destruct (Ascii.eqb c "/" && Ascii.eqb c' "*"); [|by apply IH].
  apply cblock_go_inside_close_free. by eapply close_free_tail.
Qed.

Lemma cblock_go_skip pre rest :
  open_free pre = true ->
  cblock_go None (pre +:+ "/*" +:+ rest) = cblock_go (Some "") rest.
Proof.
  induction pre as [|c pre IH]; intros Hpre; [done|].
  rewrite sapp_cons, cblock_go_outside.
  destruct pre as [|c' pre'].
  - rewrite sapp_empty_l.
    change ("/*" +:+ rest) with (String "/" (String "*" rest)). cbn iota.
    change (Ascii.eqb "/" "*") with false. rewrite andb_false_r.
    by rewrite cblock_go_outside.
  - rewrite sapp_cons. cbn [open_free] in Hpre.
    apply andb_true_iff in Hpre as [Hcc Hpre]. apply negb_true_iff in Hcc.
    rewrite Hcc, <- sapp_cons. by apply IH.
Qed.

Lemma cblock_go_group a acc post :
  close_free a = true ->
  cblock_go (Some acc) (a +:+ "*/" +:+ post)
  = (String.rev acc +:+ a) :: cblock_go None post.
Proof.
  revert acc. induction a as [|c a IH]; intros acc Ha.
  - rewrite sapp_empty_l, sapp_empty_r.
    change ("*/" +:+ post) with (String "*" (String "/" post)).
    by rewrite cblock_go_inside.
  - rewrite sapp_cons, cblock_go_inside.
    destruct a as [|c' a'].
    + rewrite sapp_empty_l.
      change ("*/" +:+ post) with (String "*" (String "/" post)). cbn iota.
      change (Ascii.eqb "*" "/") with false. rewrite andb_false_r.
      rewrite cblock_go_inside.
      change (Ascii.eqb "*" "*" && Ascii.eqb "/" "/") with true. cbn iota.
      unfold String.rev. cbn [String.rev_app]. by rewrite !rev_app_app.
    + rewrite sapp_cons. pose proof (close_free_tail _ _ Ha) as Ha'.
      cbn [close_free] in Ha. apply andb_true_iff in Ha as [Hcc _].
      apply negb_true_iff in Hcc. rewrite Hcc, <- sapp_cons, IH by done.
      unfold String.rev. cbn [String.rev_app]. by rewrite !rev_app_app.
Qed.

End Scanner.

(** X4: the block comments are matched from left to right, each from its
    opening to the first closing after it: a text that opens no comment,
    then a comment whose content holds no closing, then the rest, gives
    that content followed by the matches of the rest. *)
Theorem cblock_finditer_first_comment (pre a post : string) :
  open_free pre = true -> close_free a = true ->
  cblock_finditer (pre +:+ "/*" +:+ a +:+ "*/" +:+ post)
  = a :: cblock_finditer post.
Proof.
  intros Hpre Ha. unfold cblock_finditer.
  by rewrite cblock_go_skip, cblock_go_group.
Qed.

Lemma cblock_finditer_first_comment_witness :
  cblock_finditer ("int x; /" +:+ "/*" +:+ "* first /* still first *" +:+ "*/"
                   +:+ " y /* second */")
  = ["* first /* still first *"; " second "].
Proof.
  rewrite (cblock_finditer_first_comment "int x; /" "* first /* still first *"
             " y /* second */"); reflexivity.
Defined.

(** X5: a text in which no block comment closes and no line is a comment
    line yields no item, whatever comments it opens. *)
Theorem parse_generic_comments_nothing (content : string) :
  close_free content = true ->
  Forall (fun ln => plain_line ln = true) (Py.splitlines content) ->
  parse_generic_comments content = [].
Proof.
  intros Hclose Hlines. rewrite parse_generic_comments_passes.
  unfold block_items, cblock_finditer. rewrite cblock_go_close_free by done.
  unfold run_items.
  assert (comment_runs (Py.splitlines content) = []) as ->; [|done].
  induction Hlines as [|ln lines Hln _ IH]; [done|].
  cbn [comment_runs].
  assert (comment_text ln = None) as ->; [|exact IH].
  unfold plain_line in Hln. unfold comment_text.
  apply andb_true_iff in Hln as [H1 H2].
  apply negb_true_iff in H1, H2. by rewrite H1, H2.
Qed.

Lemma parse_generic_comments_nothing_witness :
  parse_generic_comments
    (Py.join nl ["int f(void) {"; "  return 1; /* never closed"; "}"])
  = [].
Proof.
  apply parse_generic_comments_nothing; [reflexivity|].
  vm_compute. repeat constructor.
Defined.

Section Trimmed.

Lemma strip_item_block content it :
  it ∈ block_items content -> it.1 = "comment_block" /\ Py.strip it.2 = it.2 /\ it.2 <> "".
Proof.
  unfold block_items. intros (s & -> & Hs)%list_elem_of_fmap.
  apply list_elem_of_In, filter_In in Hs as [Hs Htruthy].
  apply in_map_iff in Hs as (g & <- & _). cbn [fst snd].
  split; [done|]. split; [apply strip_idem|]. by destruct (Py.strip g).
Qed.

Lemma strip_item_run lines it :
  it ∈ run_items lines -> it.1 = "comment_block" /\ Py.strip it.2 = it.2.
Proof.
  unfold run_items. intros (run & -> & _)%list_elem_of_fmap. cbn [fst snd].
  split; [done|]. apply strip_idem.
Qed.

Lemma comment_text_hash l : comment_text ("#" +:+ l) = Some (Py.strip l).
Proof.
  unfold comment_text.
  assert (Py.strip ("#" +:+ l) = "#" +:+ Py.rstrip l) as ->.
  { unfold Py.strip. rewrite !sapp_cons, !sapp_empty_l. cbn [Py.lstrip].
    change (Py.isspace "#") with false. cbn iota.
    rewrite !rstrip_cons_keep by reflexivity. reflexivity. }
  rewrite !sapp_cons, !sapp_empty_l. simpl. by rewrite strip_rstrip.
Qed.

Lemma comment_text_line x : comment_text (comment_line x) = Some (Py.strip x.2).
Proof.
  destruct x as [[] l]; unfold comment_line; cbn [fst snd].
  - apply comment_text_hash.
  - apply comment_text_slashes.
Qed.

(** Consecutive comment lines, and nothing else, are one run. *)
Lemma comment_runs_all lines :
  lines <> [] -> Forall (fun ln => is_Some (comment_text ln)) lines ->
  comment_runs lines = [omap comment_text lines].
Proof.
  induction lines as [|ln rest IH]; [done|]. intros _ Hall.
  apply Forall_cons in Hall as [[t Ht] Hall].
  cbn [comment_runs omap list_omap]. rewrite Ht. cbn [mbind option_bind].
  destruct rest as [|next rest']; [done|].
  rewrite IH by done.
  apply Forall_cons in Hall as [[t' Ht'] _]. by rewrite Ht'.
Qed.

Lemma star_free_join_lines xs :
  Forall (fun x => star_free x.2 = true) xs ->
  star_free (Py.join nl (map comment_line xs)) = true.
Proof.
  induction 1 as [|x xs Hx _ IH]; [done|].
  assert (star_free (comment_line x) = true) as Hline.
  { unfold comment_line, star_free in *. rewrite all_chars_app, Hx. by destruct x.1. }
  destruct xs as [|y xs]; [exact Hline|].
  change (Py.join nl (map comment_line (x :: y :: xs)))
    with (comment_line x +:+ nl +:+ Py.join nl (map comment_line (y :: xs))).
  unfold star_free in *. rewrite !all_chars_app, Hline, IH. done.
Qed.

Lemma generic_items_trimmed content it :
  it ∈ parse_generic_comments content ->
  it.1 = "comment_block" /\ Py.strip it.2 = it.2.
Proof.
  rewrite parse_generic_comments_passes, elem_of_app. intros [H|H].
  - by destruct (strip_item_block _ _ H) as (? & ? & _).
  - by apply strip_item_run in H.
Qed.

End Trimmed.

(** X6: every item of [parse_generic_comments] is titled [comment_block]
    and its body has no white space at either end. *)
Theorem parse_generic_comments_items_trimmed (content : string) (it : item) :
  it ∈ parse_generic_comments content ->
  it.1 = "comment_block" /\ Py.strip it.2 = it.2.
Proof. apply generic_items_trimmed. Qed.

Lemma parse_generic_comments_items_trimmed_witness :
  let content := Py.join nl ["/*  A  */"; "  //  one  "; " # two"; "x"] in
  let it := ("comment_block", Py.join nl ["one"; "two"]) in
  it ∈ parse_generic_comments content
  /\ it.1 = "comment_block" /\ Py.strip it.2 = it.2.
Proof.
  intros content it.
  assert (it ∈ parse_generic_comments content) as Hin.
  { vm_compute. apply elem_of_cons. right. apply elem_of_cons. by left. }
  split; [exact Hin|].
  exact (parse_generic_comments_items_trimmed content it Hin).
Defined.

(** X7: a text made of comment lines only, each a marker, [#] or [//],
    and a text of one line without asterisk, is one run: the result is a
    single item, the trimmed texts of the lines joined by newlines and
    trimmed again.  A preprocessor line of a C file is such a line. *)
Theorem parse_generic_comments_one_run (xs : list (bool * string)) :
  xs <> [] ->
  Forall (fun x => one_line x.2 = true /\ star_free x.2 = true) xs ->
  parse_generic_comments (Py.join nl (map comment_line xs))
  = [("comment_block", Py.strip (Py.join nl (map (fun x => Py.strip x.2) xs)))].
Proof.
  intros Hne Hall. rewrite parse_generic_comments_passes.
  assert (block_items (Py.join nl (map comment_line xs)) = []) as ->.
  { unfold block_items, cblock_finditer. rewrite cblock_go_star_free; [done|].
    apply star_free_join_lines. eapply Forall_impl; [exact Hall|]. by intros x [_ ?]. }
  assert (Py.splitlines (Py.join nl (map comment_line xs)) = map comment_line xs) as ->.
  { apply splitlines_join.
    - apply Forall_fmap. eapply Forall_impl; [exact Hall|]. intros x [Hx _].
      unfold comment_line, one_line in *. cbn [compose]. rewrite all_chars_app, Hx.
      by destruct x.1.
    - rewrite fmap_last. destruct (last xs) as [x|]; [|done]. cbn [fmap option_fmap option_map].
      intros [= H]. unfold comment_line in H. by destruct x.1. }
  unfold run_items. rewrite comment_runs_all.
  - cbn [map app]. do 4 f_equal.
    clear. induction xs as [|x xs IH]; [done|].
    cbn [map omap list_omap]. rewrite comment_text_line. cbn [mbind option_bind]. by rewrite IH.
  - by destruct xs.
  - apply Forall_fmap. apply Forall_true. intros x. cbn [compose].
    rewrite comment_text_line. by eexists.
Qed.

Lemma parse_generic_comments_one_run_witness :
  parse_generic_comments
    (Py.join nl ["#include <stdio.h>"; "// entry point "; "#"; "//  of the tool"])
  = [("comment_block", Py.join nl ["include <stdio.h>"; "entry point"; ""; "of the tool"])].
Proof.
  apply (parse_generic_comments_one_run
           [(true, "include <stdio.h>"); (false, " entry point "); (true, "");
            (false, "  of the tool")]); [done|].
  repeat constructor.
Defined.

Section PythonTrimmed.

Variable cleandoc : string -> string.

Lemma class_body_text_trimmed class_body :
  Py.strip (class_body_text cleandoc class_body) = class_body_text cleandoc class_body
  /\ class_body_text cleandoc class_body <> "".
Proof.
  unfold class_body_text.
  destruct (Py.strip (trimmed_doc cleandoc class_body
                      +:+ methods_section (direct_methods cleandoc class_body)))
    as [|c r] eqn:Hbody; [done|].
  cbn [Py.truthy]. split; [|done]. by rewrite <- Hbody, strip_idem.
Qed.

Lemma statement_item_trimmed node it :
  statement_item cleandoc node = Some it -> Py.strip it.2 = it.2.
Proof.
  destruct node; cbn [statement_item]; intros [= <-]; cbn [snd];
    try apply strip_idem. apply class_body_text_trimmed.
Qed.

Lemma module_items_trimmed module it :
  it ∈ module_items cleandoc module -> Py.strip it.2 = it.2.
Proof.
  rewrite module_items_spec, elem_of_app. intros [H|H].
  - unfold module_doc_item in H.
    destruct (ast.get_docstring cleandoc (ast.body module)) as [d|];
      [|by apply elem_of_nil in H].
    destruct (Py.truthy d); [|by apply elem_of_nil in H].
    apply list_elem_of_singleton in H as ->. apply strip_idem.
  - apply list_elem_of_omap in H as (node & _ & Hnode).
    by eapply statement_item_trimmed.
Qed.

End PythonTrimmed.

(** X8: whatever the parser answers, every item of [parse_python] has a
    body without white space at either end; and the body of a class item
    is never empty, while that of a function item is when the function has
    no docstring. *)
Theorem parse_python_items_trimmed
    (ast_parse : string -> option ast.Mod) (cleandoc : string -> string)
    (content : string) (it : item) :
  it ∈ parse_python ast_parse cleandoc content ->
  Py.strip it.2 = it.2
  /\ (forall name class_body, (class_item cleandoc name class_body).2 <> "")
  /\ (forall name fbody,
        ast.get_docstring cleandoc fbody = None ->
        node_step cleandoc [] (ast.FunctionDef name fbody)
        = [("def " +:+ name +:+ "()", "")]).
Proof.
  intros Hin. split; [|split].
  - unfold parse_python in Hin. destruct (ast_parse content) as [module|].
    + by eapply module_items_trimmed.
    + by apply generic_items_trimmed in Hin as [_ ?].
  - intros name class_body. rewrite class_item_text. apply class_body_text_trimmed.
  - intros name fbody Hnone. cbn [node_step app]. unfold docstring_or_empty.
    by rewrite Hnone.
Qed.

Lemma parse_python_items_trimmed_witness :
  let it := ("class C", "Methods:" +:+ nl +:+ "- m1(): returns 1" +:+ nl +:+ "- m2(): (no doc)") in
  it ∈ parse_python sample_parse inspect.cleandoc sample_source
  /\ Py.strip it.2 = it.2.
Proof.
  intros it.
  assert (it ∈ parse_python sample_parse inspect.cleandoc sample_source) as Hin.
  { vm_compute. apply elem_of_cons. right. apply elem_of_cons. by left. }
  split; [exact Hin|].
  exact (proj1 (parse_python_items_trimmed sample_parse inspect.cleandoc sample_source it Hin)).
Defined.

Section GraphLaws.

Variable alloc : nat -> nat.

Lemma find_nodes_add_node g jt ps jt' :
  find_nodes (add_node alloc g jt ps).1 jt'
  = find_nodes g jt'
    ++ (if String.eqb jt jt' then [(add_node alloc g jt ps).2] else []).
Proof.
  unfold find_nodes, add_node. cbn [fst snd nodes].
  rewrite List.filter_app. cbn [List.filter j_type]. by destruct (String.eqb jt jt').
Qed.

Lemma elem_of_find_nodes g jt n :
  n ∈ find_nodes g jt <-> n ∈ nodes g /\ j_type n = jt.
Proof.
  unfold find_nodes. rewrite !list_elem_of_In, filter_In.
  by rewrite String.eqb_eq.
Qed.

Lemma ids_in_order_add_node g jt ps :
  ids_in_order alloc g -> ids_in_order alloc (add_node alloc g jt ps).1.
Proof.
  unfold ids_in_order, add_node. cbn [fst nodes]. intros H.
  rewrite map_app, length_app, H. cbn [length map node_id].
  by rewrite Nat.add_1_r, seq_S, map_app.
Qed.

Lemma ids_in_order_NoDup g :
  (forall m n, alloc m = alloc n -> m = n) ->
  ids_in_order alloc g -> NoDup (map node_id (nodes g)).
Proof.
  intros Hinj ->. apply NoDup_fmap_2; [|apply NoDup_seq].
  intros m n. apply Hinj.
Qed.

End GraphLaws.

(** X9: [find_nodes] returns the nodes of the asked type, in the order they
    were added: a node is found exactly when it is a node of the graph with
    that type; adding a node appends it to the nodes found for its own type
    and changes nothing for another type; adding an edge changes nothing. *)
Theorem find_nodes_insertion_order
    (alloc : nat -> nat) (g : GraphSimple) (jt : string) :
  (forall n, n ∈ find_nodes g jt <-> n ∈ nodes g /\ j_type n = jt)
  /\ (forall ps, find_nodes (add_node alloc g jt ps).1 jt
                 = find_nodes g jt ++ [(add_node alloc g jt ps).2])
  /\ (forall jt' ps, jt' <> jt ->
        find_nodes (add_node alloc g jt' ps).1 jt = find_nodes g jt)
  /\ (forall jt' src dst, find_nodes (add_edge g jt' src dst).1 jt = find_nodes g jt)
  /\ find_nodes GraphSimple_init jt = [].
Proof.
  split; [intros n; apply elem_of_find_nodes|]. split; [|split; [|done]].
  - intros ps. by rewrite find_nodes_add_node, String.eqb_refl.
  - intros jt' ps Hne. rewrite find_nodes_add_node.
    destruct (String.eqb_spec jt' jt); [done|]. by rewrite app_nil_r.
Qed.

Section NodeInvariant.

Variable ast_parse : string -> option ast.Mod.
Variable cleandoc : string -> string.
Variable alloc : nat -> nat.
Variable read_text : string -> string.

Local Abbreviation step' := (step ast_parse cleandoc alloc read_text).

Lemma nodes_ok_step c c' :
  step' c c' -> nodes_ok alloc (cfg_graph c) -> nodes_ok alloc (cfg_graph c').
Proof.
  unfold nodes_ok.
  destruct 1 as [g path todo g' file_node Hadd
                |g path file_node it its todo g' doc_node Hadd
                |g path file_node doc_node its todo g' e Hadd
                |g path file_node todo]; cbn [cfg_graph]; intros [Hids Htypes].
  - assert (g' = (add_node alloc g "file" (file_props path (read_text path))).1) as ->
      by (by rewrite Hadd).
    split; [by apply ids_in_order_add_node|].
    cbn [add_node fst nodes]. apply Forall_app. split; [done|].
    constructor; [by left | constructor].
  - assert (g' = (add_node alloc g "doc" (doc_props path it)).1) as ->
      by (by rewrite Hadd).
    split; [by apply ids_in_order_add_node|].
    cbn [add_node fst nodes]. apply Forall_app. split; [done|].
    constructor; [by right | constructor].
  - injection Hadd as <- <-. done.
  - done.
Qed.

Lemma nodes_ok_reachable paths c :
  rtc step' (initial paths) c -> nodes_ok alloc (cfg_graph c).
Proof.
  revert c. apply rtc_ind_r.
  - split; [done | constructor].
  - intros c1 c2 _ Hstep Hok. by eapply nodes_ok_step.
Qed.

End NodeInvariant.

(** X10: in every graph the first loop of [main] passes through, the
    identities of the nodes are the successive allocations, so no two
    nodes share an identity when no two allocations do; and every node has
    type [file] or [doc]. *)
Theorem reachable_nodes_distinct
    (ast_parse : string -> option ast.Mod) (cleandoc : string -> string)
    (alloc : nat -> nat) (read_text : string -> string)
    (paths : list string) (g : GraphSimple) :
  (forall m n, alloc m = alloc n -> m = n) ->
  reachable ast_parse cleandoc alloc read_text paths g ->
  NoDup (map node_id (nodes g))
  /\ map node_id (nodes g) = map alloc (seq 0 (length (nodes g)))
  /\ (forall n, n ∈ nodes g -> j_type n = "file" \/ j_type n = "doc").
Proof.
  intros Hinj (c & Hrun & <-).
  destruct (nodes_ok_reachable _ _ _ _ _ _ Hrun) as [Hids Htypes].
  split; [by eapply ids_in_order_NoDup|]. split; [exact Hids|].
  by rewrite Forall_forall in Htypes.
Qed.

Lemma reachable_nodes_distinct_witness :
  let g := build_graph sample_parse inspect.cleandoc (fun n => 3 * n + 1) sample_read_text
             (enumerate sample_walk) in
  map node_id (nodes g) = [1; 4; 7; 10; 13; 16; 19; 22; 25; 28; 31; 34; 37; 40; 43]
  /\ NoDup (map node_id (nodes g)).
Proof.
  split; [reflexivity|].
  apply (reachable_nodes_distinct sample_parse inspect.cleandoc (fun n => 3 * n + 1)
           sample_read_text (enumerate sample_walk)).
  - intros m n H. lia.
  - apply build_graph_reachable.
Defined.

Section Census.

Variable ast_parse : string -> option ast.Mod.
Variable cleandoc : string -> string.
Variable alloc : nat -> nat.
Variable read_text : string -> string.

Local Abbreviation items := (items_of ast_parse cleandoc read_text).
Local Abbreviation blocks := (layout ast_parse cleandoc alloc read_text).
Local Abbreviation graph := (build_graph ast_parse cleandoc alloc read_text).

Lemma filter_doc_doc_nodes n path its :
  List.filter (fun x => String.eqb (j_type x) "doc") (doc_nodes alloc n path its)
  = doc_nodes alloc n path its.
Proof.
  revert n. induction its as [|it its IH]; intros n; [done|].
  cbn [doc_nodes List.filter doc_node_at j_type].
  change (String.eqb "doc" "doc") with true. cbn iota. by rewrite IH.
Qed.

Lemma filter_doc_block_nodes n paths :
  List.filter (fun x => String.eqb (j_type x) "doc")
    (flat_map block_nodes (blocks n paths))
  = flat_map snd (blocks n paths).
Proof.
  revert n. induction paths as [|path paths IH]; intros n; [done|].
  cbn [layout flat_map fst block_nodes snd app List.filter file_node_at j_type].
  change (String.eqb "file" "doc") with false. cbn iota.
  by rewrite List.filter_app, filter_doc_doc_nodes, IH.
Qed.

Lemma map_source_blocks (L : list (Node * list Node)) :
  map source (flat_map block_edges L) = flat_map snd L.
Proof.
  induction L as [|b L IH]; [done|].
  cbn [flat_map]. by rewrite map_app, map_source_block_edges, IH.
Qed.

Lemma blocks_paths n paths :
  map (fun b => props b.1) (blocks n paths)
  = map (fun path => file_props path (read_text path)) paths.
Proof.
  revert n. induction paths as [|path paths IH]; intros n; [done|].
  cbn [layout map fst file_node_at props]. by rewrite IH.
Qed.

Lemma blocks_nodes_length n paths :
  length (flat_map block_nodes (blocks n paths))
  = length paths + length (flat_map snd (blocks n paths)).
Proof.
  revert n. induction paths as [|path paths IH]; intros n; [done|].
  cbn [layout flat_map block_nodes fst snd length app].
  rewrite !length_app, IH. lia.
Qed.

Lemma blocks_docs_length n paths :
  length (flat_map snd (blocks n paths))
  = length (flat_map items paths).
Proof.
  revert n. induction paths as [|path paths IH]; intros n; [done|].
  cbn [layout flat_map snd]. by rewrite !length_app, doc_nodes_length, IH.
Qed.

(** Every edge of a layout goes from the doc node of an item of a file to
    the file node of that file. *)
Lemma blocks_edges n paths e :
  e ∈ flat_map block_edges (blocks n paths) ->
  exists path it,
    path ∈ paths /\ it ∈ items path
    /\ edge_j_type e = "for_file"
    /\ j_type (dest e) = "file"
    /\ props (dest e) = file_props path (read_text path)
    /\ j_type (source e) = "doc"
    /\ props (source e) = doc_props path it.
Proof.
  revert n. induction paths as [|path paths IH]; intros n.
  - intros H. by apply elem_of_nil in H.
  - cbn [layout flat_map]. rewrite elem_of_app. intros [H|H].
    + unfold block_edges in H. cbn [fst snd] in H.
      apply list_elem_of_fmap in H as (d & -> & Hd).
      assert (exists it, it ∈ items path /\ j_type d = "doc" /\ props d = doc_props path it)
        as (it & Hit & Hty & Hprops).
      { clear -Hd. revert Hd. generalize (S n). generalize (items path) as its.
        induction its as [|it its IH]; intros m Hd; [by apply elem_of_nil in Hd|].
        cbn [doc_nodes] in Hd. apply elem_of_cons in Hd as [->|Hd].
        - exists it. split; [by left | done].
        - destruct (IH _ Hd) as (it' & ? & ?). exists it'. split; [by right | done]. }
      exists path, it. cbn [edge_j_type dest source file_node_at j_type props].
      split; [by left|]. done.
    + destruct (IH _ H) as (p & it & Hp & Hrest). exists p, it. split; [by right | done].
Qed.

End Census.

(** X11: the graph [main] builds holds one [file] node per discovered
    file, in order, carrying the path and the text read from it; besides
    these it holds the [doc] nodes, one per item of each file; and the
    sources of the edges, in order, are exactly the [doc] nodes, in order,
    so that every [doc] node starts one edge. *)
Theorem build_graph_census
    (ast_parse : string -> option ast.Mod) (cleandoc : string -> string)
    (alloc : nat -> nat) (read_text : string -> string) (paths : list string) :
  let g := build_graph ast_parse cleandoc alloc read_text paths in
  map props (find_nodes g "file")
  = map (fun path => {[ "path" := path; "content" := read_text path ]}) paths
  /\ map source (edges g) = find_nodes g "doc"
  /\ length (edges g)
     = length (flat_map (items_of ast_parse cleandoc read_text) paths)
  /\ length (nodes g) = length paths + length (edges g).
Proof.
  intros g. unfold g, find_nodes. rewrite build_graph_shape. cbn [nodes edges].
  rewrite filter_block_nodes, filter_doc_block_nodes, map_source_blocks.
  split; [|split; [done|split]].
  - rewrite map_map. apply blocks_paths.
  - rewrite <- (length_map source), map_source_blocks. apply blocks_docs_length.
  - rewrite blocks_nodes_length. f_equal.
    by rewrite <- (length_map source (flat_map _ _)), map_source_blocks.
Qed.

(** X12: every edge of the graph [main] builds goes from the [doc] node
    of an item of some discovered file to the [file] node of that same
    file; the [doc] node carries the title of the item, its body, or
    [(no description)] in place of an empty body, and as [lang] the suffix
    of the path without its dot: no [doc] node has an empty body. *)
Theorem build_graph_edges
    (ast_parse : string -> option ast.Mod) (cleandoc : string -> string)
    (alloc : nat -> nat) (read_text : string -> string)
    (paths : list string) (e : Edge) :
  e ∈ edges (build_graph ast_parse cleandoc alloc read_text paths) ->
  exists path it body,
    path ∈ paths
    /\ it ∈ items_of ast_parse cleandoc read_text path
    /\ edge_j_type e = "for_file"
    /\ j_type (dest e) = "file"
    /\ props (dest e) !! "path" = Some path
    /\ props (dest e) !! "content" = Some (read_text path)
    /\ j_type (source e) = "doc"
    /\ props (source e) !! "title" = Some it.1
    /\ props (source e) !! "body" = Some body
    /\ body = (if Py.truthy it.2 then it.2 else "(no description)")
    /\ body <> ""
    /\ props (source e) !! "lang" = Some (Py.lstrip_dots (Path.suffix path)).
Proof.
  rewrite build_graph_shape. cbn [edges]. intros He.
  destruct (blocks_edges _ _ _ _ _ _ _ He)
    as (path & it & Hpath & Hit & Hty & Hdty & Hdprops & Hsty & Hsprops).
  exists path, it, (if Py.truthy it.2 then it.2 else "(no description)").
  rewrite Hdprops, Hsprops. unfold file_props, doc_props, Py.or_else.
  repeat split; try done;
    try (by rewrite ?lookup_insert_ne, ?lookup_insert_eq, ?lookup_singleton_eq by done).
  by destruct it.2.
Qed.

Lemma build_graph_edges_witness :
  let g := build_graph sample_parse inspect.cleandoc (fun n => n) sample_read_text
             (enumerate sample_walk) in
  exists e path it body,
    edges g !! 2 = Some e
    /\ path ∈ enumerate sample_walk
    /\ it ∈ items_of sample_parse inspect.cleandoc sample_read_text path
    /\ props (dest e) !! "path" = Some path
    /\ props (source e) !! "title" = Some it.1
    /\ props (source e) !! "body" = Some body
    /\ body <> "".
Proof.
  intros g.
  destruct (lookup_lt_is_Some_2 (edges g) 2) as [e He]; [vm_compute; lia|].
  destruct (build_graph_edges sample_parse inspect.cleandoc (fun n => n) sample_read_text
              (enumerate sample_walk) e)
    as (path & it & body & Hpath & Hit & _ & _ & Hp & _ & _ & Ht & Hb & _ & Hne & _).
  - by eapply list_elem_of_lookup_2.
  - exists e, path, it, body. done.
Defined.

Section Suffix.

Lemma rfind_dot_free ext : dot_free ext = true -> Py.rfind "." ext = None.
Proof.
  induction ext as [|c ext IH]; [done|]. unfold dot_free. simpl.
  intros [Hc Hext]%andb_true_iff. rewrite (IH Hext).
  by apply negb_true_iff in Hc as ->.
Qed.

Lemma rfind_dot_ext stem ext :
  dot_free ext = true ->
  Py.rfind "." (stem +:+ "." +:+ ext) = Some (String.length stem).
Proof.
  intros Hext. induction stem as [|c stem IH].
  - rewrite sapp_empty_l, sapp_cons, sapp_empty_l. cbn [Py.rfind].
    by rewrite rfind_dot_free.
  - rewrite sapp_cons. cbn [Py.rfind String.length]. by rewrite IH.
Qed.

Lemma lstrip_dots_dot_free ext : dot_free ext = true -> Py.lstrip_dots ext = ext.
Proof.
  destruct ext as [|c ext]; [done|]. unfold dot_free. simpl.
  intros [Hc _]%andb_true_iff. apply negb_true_iff in Hc.
  destruct (Ascii.eqb_spec c "."); [done|].
  by destruct c as [[] [] [] [] [] [] [] []].
Qed.

(** The suffix of [stem.ext] is [.ext]. *)
Lemma suffix_stem_ext root stem ext :
  stem <> "" -> ext <> "" -> dot_free ext = true ->
  slash_free (stem +:+ "." +:+ ext) = true ->
  Path.suffix (Path.joinpath root (stem +:+ "." +:+ ext)) = "." +:+ ext.
Proof.
  intros Hstem Hext Hdot Hslash. unfold Path.suffix.
  rewrite name_joinpath by done.
  rewrite rfind_dot_ext, length_app_string, drop_length_app by done.
  destruct (0 <? String.length stem) eqn:Hpos.
  - destruct (String.length stem <? String.length stem + String.length ("." +:+ ext) - 1)
             eqn:Hlt; [done|].
    apply Nat.ltb_ge in Hlt. destruct ext as [|a ext]; [done|].
    change ("." +:+ String a ext) with (String "." (String a ext)) in Hlt.
    cbn [String.length] in Hlt. lia.
  - apply Nat.ltb_ge in Hpos. destruct stem; [done|]. cbn [String.length] in Hpos. lia.
Qed.

End Suffix.

(** X13: the [lang] of the [doc] nodes of a discovered file named
    [stem.ext], with [ext] free of dots, is [ext] as it is written in the
    name, whatever items the file has. *)
Theorem doc_lang_is_extension (root stem ext : string) (it : item) :
  stem <> "" -> ext <> "" -> dot_free ext = true ->
  slash_free (stem +:+ "." +:+ ext) = true ->
  doc_props (Path.joinpath root (stem +:+ "." +:+ ext)) it !! "lang" = Some ext.
Proof.
  intros Hstem Hext Hdot Hslash. unfold doc_props.
  rewrite !lookup_insert_ne by done. rewrite lookup_singleton_eq.
  rewrite suffix_stem_ext by done. f_equal.
  rewrite sapp_cons, sapp_empty_l. cbn [Py.lstrip_dots].
  by apply lstrip_dots_dot_free.
Qed.

Lemma doc_lang_is_extension_witness :
  doc_props "src/pkg/Main.test.PY" ("Summary", "") !! "lang" = Some "PY".
Proof.
  apply (doc_lang_is_extension "src/pkg" "Main.test" "PY" ("Summary", "")); done.
Defined.

(** X14: for every discovered file, the markdown [main] renders is the
    heading with the name of the file, the line with its path, and then,
    for each item of the file in the order of extraction, a subheading
    with the title and the body, [(no description)] standing for an empty
    body. *)
Theorem render_lists_items
    (ast_parse : string -> option ast.Mod) (cleandoc : string -> string)
    (alloc : nat -> nat) (read_text : string -> string)
    (walk : list (string * list string)) (k : nat) (path : string) :
  (forall m n, alloc m = alloc n -> m = n) ->
  enumerate walk !! k = Some path ->
  let g := build_graph ast_parse cleandoc alloc read_text (enumerate walk) in
  exists file_node,
    find_nodes g "file" !! k = Some file_node
    /\ props file_node !! "path" = Some path
    /\ render g file_node path
       = Py.join nl
           (["# " +:+ Path.name path +:+ nl; "_path_: `" +:+ path +:+ "`" +:+ nl]
            ++ flat_map
                 (fun it =>
                    ["## " +:+ it.1 +:+ nl;
                     (if Py.truthy it.2 then it.2 else "(no description)") +:+ nl])
                 (items_of ast_parse cleandoc read_text path)).
Proof.
  intros Hinj Hk g.
  destruct (lookup_lt_is_Some_2 (layout ast_parse cleandoc alloc read_text 0 (enumerate walk)) k)
    as [b Hb].
  { rewrite blocks_length. by eapply lookup_lt_Some. }
  destruct (render_block _ _ _ _ Hinj _ _ _ _ Hb Hk) as [Hpath Hrender].
  exists b.1. split; [|split; [exact Hpath | exact Hrender]].
  unfold g. by rewrite find_nodes_graph, list_lookup_fmap, Hb.
Qed.

Lemma render_lists_items_witness :
  let g := build_graph sample_parse inspect.cleandoc (fun n => n) sample_read_text
             (enumerate sample_walk) in
  exists file_node,
    find_nodes g "file" !! 3 = Some file_node
    /\ render g file_node "src/a/x.c"
       = Py.join nl
           ["# x.c" +:+ nl; "_path_: `src/a/x.c`" +:+ nl;
            "## comment_block" +:+ nl; "A" +:+ nl;
            "## comment_block" +:+ nl; Py.join nl ["one"; "two"; "three"] +:+ nl].
Proof.
  destruct (render_lists_items sample_parse inspect.cleandoc (fun n => n)
              sample_read_text sample_walk 3 "src/a/x.c")
    as (file_node & Hfile & _ & Hrender).
  - intros m n H. exact H.
  - reflexivity.
  - exists file_node. split; [exact Hfile | exact Hrender].
Defined.

(** X15: when several discovered files share an output path, the output
    file holds, after a run that returns, the markdown of the last of
    them: a file that no later discovered file overwrites keeps its own
    markdown. *)
Theorem last_writer_wins
    (ast_parse : string -> option ast.Mod) (cleandoc : string -> string)
    (alloc : nat -> nat) (read_text : string -> string)
    (readable : string -> bool) (writable : string -> string -> bool)
    (walk : list (string * list string)) (w w' : World)
    (before after : list string) (path : string) :
  (forall m n, alloc m = alloc n -> m = n) ->
  main ast_parse cleandoc alloc read_text readable writable walk w = Some w' ->
  enumerate walk = before ++ path :: after ->
  Forall (fun p => Path.name p <> Path.name path) after ->
  docs w' !! ("docs/" +:+ Path.name path +:+ ".md")
  = Some (markdown path (items_of ast_parse cleandoc read_text path)).
Proof.
  intros Hinj Hmain Hpaths Hafter.
  apply main_returned in Hmain as (_ & _ & ->); [|done].
  rewrite Hpaths. cbn [docs print]. rewrite fold_left_app. cbn [fold_left].
  rewrite docs_emit_other.
  - cbn [emit print docs]. apply lookup_insert_eq.
  - intros (q & Hq & Hin)%list_elem_of_fmap.
    rewrite Forall_forall in Hafter. apply (Hafter q Hin).
    symmetry. by apply out_path_inj.
Qed.

Lemma last_writer_wins_witness :
  exists w',
    main sample_parse inspect.cleandoc (fun n => n) sample_read_text reads_ok name_fits
      sample_walk empty_world = Some w'
    /\ docs w' !! "docs/x.c.md"
       = Some (markdown "src/b/x.c"
                 [("Summary", "No docstrings or comment blocks found in x.c")]).
Proof.
  destruct (main sample_parse inspect.cleandoc (fun n => n) sample_read_text reads_ok
              name_fits sample_walk empty_world) as [w'|] eqn:Hmain;
    [|vm_compute in Hmain; discriminate].
  exists w'. split; [reflexivity|].
  apply (last_writer_wins sample_parse inspect.cleandoc (fun n => n) sample_read_text
           reads_ok name_fits sample_walk empty_world w'
           ["src/shapes.py"; "src/MAIN.PY"; "src/broken.py"; "src/a/x.c"]
           ["src/b/empty.h"] "src/b/x.c").
  - intros m n H. exact H.
  - exact Hmain.
  - reflexivity.
  - repeat constructor. vm_compute. discriminate.
Defined.

Lemma forallb_false_exists {A} (f : A -> bool) (l : list A) :
  forallb f l = false -> exists x, In x l /\ f x = false.
Proof.
  induction l as [|a l IH]; cbn [forallb]; [done|].
  destruct (f a) eqn:Ha; cbn [andb].
  - intros (x & Hx & Hfx)%IH. exists x. split; [by right | done].
  - intros _. exists a. split; [by left | done].
Qed.

(** X16: [main] returns exactly when the operating system refuses none of
    the reads of the discovered files and none of the writes of their
    markdown; a refused read or write makes it raise, the writes not being
    guarded. *)
Theorem main_returns_iff
    (ast_parse : string -> option ast.Mod) (cleandoc : string -> string)
    (alloc : nat -> nat) (read_text : string -> string)
    (readable : string -> bool) (writable : string -> string -> bool)
    (walk : list (string * list string)) (w : World) :
  (forall m n, alloc m = alloc n -> m = n) ->
  (is_Some (main ast_parse cleandoc alloc read_text readable writable walk w)
   <-> (forall p, p ∈ enumerate walk -> readable p = true)
       /\ (forall p, p ∈ enumerate walk ->
             writable ("docs/" +:+ Path.name p +:+ ".md")
               (markdown p (items_of ast_parse cleandoc read_text p)) = true))
  /\ (main ast_parse cleandoc alloc read_text readable writable walk w = None
      <-> exists p, p ∈ enumerate walk
                    /\ (readable p = false
                        \/ writable ("docs/" +:+ Path.name p +:+ ".md")
                             (markdown p (items_of ast_parse cleandoc read_text p))
                           = false)).
Proof.
  intros Hinj. rewrite (main_spec _ _ _ _ Hinj).
  destruct (forallb readable (enumerate walk)) eqn:Hr; cbn [andb].
  - destruct (forallb (accepted ast_parse cleandoc read_text writable) (enumerate walk))
             eqn:Hw.
    + rewrite forallb_forall in Hr, Hw. split.
      * split; [|by eexists]. intros _.
        split; intros p Hp%list_elem_of_In; [by apply Hr | by apply Hw].
      * split; [done|]. intros (p & Hp%list_elem_of_In & [Hp'|Hp']).
        -- by rewrite (Hr p Hp) in Hp'.
        -- pose proof (Hw p Hp) as Hacc. unfold accepted in Hacc.
           rewrite out_path_name in Hacc. by rewrite Hacc in Hp'.
    + apply forallb_false_exists in Hw as (p & Hp & Hacc). split.
      * split; [by intros [? [=]]|]. intros [_ Hall].
        apply list_elem_of_In in Hp. specialize (Hall p Hp).
        unfold accepted in Hacc. rewrite out_path_name in Hacc. by rewrite Hall in Hacc.
      * split; [|done]. intros _. exists p. split; [by apply list_elem_of_In|].
        right. unfold accepted in Hacc. by rewrite out_path_name in Hacc.
  - apply forallb_false_exists in Hr as (p & Hp & Hread). split.
    + split; [by intros [? [=]]|]. intros [Hall _].
      apply list_elem_of_In in Hp. by rewrite (Hall p Hp) in Hread.
    + split; [|done]. intros _. exists p. split; [by apply list_elem_of_In | by left].
Qed.

Lemma main_returns_iff_witness :
  main sample_parse inspect.cleandoc (fun n => n) sample_read_text reads_ok name_fits
    [("src", ["x.c"; long_name])] empty_world = None
  /\ is_Some (main sample_parse inspect.cleandoc (fun n => n) sample_read_text reads_ok
                name_fits [("src", ["x.c"])] empty_world).
Proof.
  split.
  - apply (main_returns_iff sample_parse inspect.cleandoc (fun n => n) sample_read_text
             reads_ok name_fits [("src", ["x.c"; long_name])] empty_world).
    + intros m n H. exact H.
    + exists (Path.joinpath "src" long_name). split.
      * vm_compute. apply elem_of_cons. right. apply elem_of_cons. by left.
      * right. reflexivity.
  - apply (main_returns_iff sample_parse inspect.cleandoc (fun n => n) sample_read_text
             reads_ok name_fits [("src", ["x.c"])] empty_world).
    + intros m n H. exact H.
    + split; intros p Hp; vm_compute in Hp;
        apply elem_of_cons in Hp as [->|Hp]; try reflexivity; by apply elem_of_nil in Hp.
Defined.
